(** * illust-salmap: paired-sample catalogs, epoch runners and snapshot hooks

    A shallow embedding of

      - [dataset/imp1k.py] and [dataset/salicon.py] (catalog build, item access),
      - [illust_salmap/training/train.py] (train / validation / test runners),
      - [illust_salmap/models/saliency_model.py] (Lightning steps and hooks),

    followed by the properties of the specification that concern them.

    Conventions.  Python [int] is [Z]; [str] and path objects are [string]
    (POSIX separators); a raised exception is the [Raise] branch of [result];
    objects whose attributes are mutated are records threaded through the
    calls.  [loss.item()] is a Python float; floats are idealised as exact
    rationals [Q], so that rounding is left out of the model while the order
    of the additions and the division by [len(dataloader)] are kept. *)

From Stdlib Require Import ZArith List String Ascii Bool Lia QArith.
From Stdlib Require Import DecimalString Sorted Permutation.
Import ListNotations.

Open Scope string_scope.
Open Scope Z_scope.

(* ================================================================== *)
(** * Python primitives used by the sources *)
(* ================================================================== *)

Module Py.

(** The exceptions the modelled code can raise. *)
Inductive exception : Type :=
| IndexError          (* list index out of range *)
| ZeroDivisionError   (* float division by zero *)
| OSError.            (* a file that cannot be opened or decoded *)

Inductive result (A : Type) : Type :=
| Return (a : A)
| Raise (e : exception).
Arguments Return {A} a.
Arguments Raise {A} e.

Definition bind {A B : Type} (r : result A) (k : A -> result B) : result B :=
  match r with
  | Return a => k a
  | Raise e => Raise e
  end.

Notation "x <- r ;; k" := (bind r (fun x => k))
  (at level 61, r at next level, right associativity).
Notation "' pat <- r ;; k" := (bind r (fun x => match x with pat => k end))
  (at level 61, pat pattern, r at next level, right associativity).

(** [len(l)]. *)
Definition len {A : Type} (l : list A) : Z := Z.of_nat (List.length l).

(** [l[index]] on a list: a negative index counts from the end, and an
    index outside [-len(l) .. len(l)-1] raises [IndexError]. *)
Definition getitem {A : Type} (l : list A) (index : Z) : result A :=
  let i := if index <? 0 then index + len l else index in
  if (i <? 0) || (len l <=? i) then Raise IndexError
  else match nth_error l (Z.to_nat i) with
       | Some x => Return x
       | None => Raise IndexError
       end.

(** [a / n] with a float [a] and an int [n]. *)
Definition truediv (a : Q) (n : Z) : result Q :=
  if n =? 0 then Raise ZeroDivisionError else Return (a / inject_Z n)%Q.

(** [x or default] where [x] is [None] or a list: [None] and the empty
    list are both falsy. *)
Definition or_default {A : Type} (x : option (list A)) (default : list A)
  : list A :=
  match x with
  | None => default
  | Some [] => default
  | Some l => l
  end.

(** ** Strings and paths *)

Definition sep : ascii := "/"%char.

Definition startswith_sep (s : string) : bool :=
  match s with
  | String c _ => Ascii.eqb c sep
  | EmptyString => false
  end.

Fixpoint endswith_sep (s : string) : bool :=
  match s with
  | EmptyString => false
  | String c EmptyString => Ascii.eqb c sep
  | String _ rest => endswith_sep rest
  end.

(** One round of the loop of [posixpath.join]. *)
Definition join_step (path b : string) : string :=
  if startswith_sep b then b
  else if (String.eqb path "") || endswith_sep path then path ++ b
  else path ++ "/" ++ b.

(** [os.path.join(a, *p)]. *)
Definition path_join (a : string) (p : list string) : string :=
  fold_left join_step p a.

(** [s.rfind("/")]: the index of the last separator, [-1] when absent. *)
Fixpoint rfind_sep_from (i : Z) (last : Z) (s : string) : Z :=
  match s with
  | EmptyString => last
  | String c rest =>
      rfind_sep_from (i + 1) (if Ascii.eqb c sep then i else last) rest
  end.

Definition rfind_sep (s : string) : Z := rfind_sep_from 0 (-1) s.

(** [s[i:]] for [0 <= i]. *)
Definition slice_from (i : Z) (s : string) : string :=
  let k := Z.to_nat i in
  String.substring k (String.length s - k) s.

(** [os.path.basename(p)]: [i = p.rfind('/') + 1; return p[i:]]. *)
Definition basename (p : string) : string :=
  slice_from (rfind_sep p + 1) p.

(** ** [sorted] on strings

      [sorted] is a stable sort by [<=] on [str], which compares code points
      left to right; the insertion sort below is stable too and uses the same
      order on byte strings. *)
Fixpoint insert_sorted (x : string) (l : list string) : list string :=
  match l with
  | [] => [x]
  | y :: l' => if String.leb x y then x :: l else y :: insert_sorted x l'
  end.

Definition sorted (l : list string) : list string :=
  fold_right insert_sorted [] l.

(** [zip(a, b)] stops at the shorter argument. *)
Definition zip {A B : Type} (a : list A) (b : list B) : list (A * B) :=
  List.combine a b.

(** [f"{n}"] for an int. *)
Definition str_of_int (n : Z) : string :=
  NilZero.string_of_int (Z.to_int n).

End Py.

Import Py.

(* ================================================================== *)
(** * The outside world of the dataset classes *)
(* ================================================================== *)

(** [Downloader] and [GoogleDriveDownloader] live in the [downloader]
    package, which is not part of the sources at hand; the datasets only
    read their [extract_path] after calling them, so a downloader is the
    path it extracted to. *)
Record Downloader : Type := { extract_path : string }.

(** What the dataset classes reach through libraries: the file system as
    seen by [glob] once the archives are extracted, the downloader
    constructors, and PIL. *)
Record World (Img : Type) : Type := {
  (* glob.glob(pattern), in whatever order the file system lists *)
  glob : string -> list string;
  (* Downloader(root=root, url=url) *)
  new_downloader : string -> string -> Downloader;
  (* GoogleDriveDownloader(root, file_id, zip_filename=name) *)
  new_gdrive_downloader : string -> string -> string -> Downloader;
  (* Image.open(path); None when the file cannot be read *)
  image_open : string -> option Img;
  (* image.convert(mode) *)
  convert : string -> Img -> Img
}.
Arguments glob {Img} _ _.
Arguments new_downloader {Img} _ _ _.
Arguments new_gdrive_downloader {Img} _ _ _ _.
Arguments image_open {Img} _ _.
Arguments convert {Img} _ _ _.

(** [Image.open(path)] as the datasets use it: a file that cannot be read
    is rendered as [OSError].  PIL's other errors (its decompression-bomb
    error among them) and the failures of its lazy decoding are not
    rendered. *)
Definition open_image {Img : Type} (w : World Img) (p : string) : result Img :=
  match image_open w p with
  | Some im => Return im
  | None => Raise OSError
  end.

(** A transform argument: [None] or a callable. *)
Definition transform (Img : Type) : Type := option (Img -> Img).

(* ================================================================== *)
(** * dataset/imp1k.py *)
(* ================================================================== *)

Module Imp1k.

Module Imp1kCategories.
Definition ads := "ads".
Definition infographics := "infographics".
Definition movie_posters := "movie_posters".
Definition webpages := "webpages".
Definition all := [ads; infographics; movie_posters; webpages].
End Imp1kCategories.

Definition URL := "https://predimportance.mit.edu/data/imp1k.zip".

Record Imp1kDataset (Img : Type) : Type := {
  categories : list string;
  image_transform : transform Img;
  map_transform : transform Img;
  downloader : Downloader;
  cache_image_map_paths_cashed : bool;
  image_map_pair_cache : list (string * string)
}.
Arguments categories {Img} _.
Arguments image_transform {Img} _.
Arguments map_transform {Img} _.
Arguments downloader {Img} _.
Arguments cache_image_map_paths_cashed {Img} _.
Arguments image_map_pair_cache {Img} _.

Section Methods.
Context {Img : Type} (w : World Img).

(** [self.image_map_pair_cache.append(pair)]. *)
Definition append_pair (self : Imp1kDataset Img) (pair : string * string)
  : Imp1kDataset Img :=
  {| categories := categories self;
     image_transform := image_transform self;
     map_transform := map_transform self;
     downloader := downloader self;
     cache_image_map_paths_cashed := cache_image_map_paths_cashed self;
     image_map_pair_cache := image_map_pair_cache self ++ [pair] |}.

(** Body of the inner [for img_path, map_path in zip(...)] loop. *)
Definition pair_step (self : Imp1kDataset Img) (pair : string * string)
  : Imp1kDataset Img :=
  let '(img_path, map_path) := pair in
  if String.eqb (basename img_path) (basename map_path)
  then append_pair self (img_path, map_path)
  else self.

(** Body of the outer [for category in self.categories] loop. *)
Definition category_step (self : Imp1kDataset Img) (category : string)
  : Imp1kDataset Img :=
  let images_dir := extract_path (downloader self) ++ "/imgs" in
  let maps_dir := extract_path (downloader self) ++ "/maps" in
  let images_path_list :=
    sorted (glob w (path_join images_dir [category; "*.jpg"])) in
  let maps_path_list :=
    sorted (glob w (path_join maps_dir [category; "*.jpg"])) in
  fold_left pair_step (zip images_path_list maps_path_list) self.

Definition cache_image_map_paths (self : Imp1kDataset Img)
  : Imp1kDataset Img :=
  if cache_image_map_paths_cashed self then self
  else fold_left category_step (categories self) self.

(** [Imp1kDataset.__init__]. *)
Definition init (root : string) (categories_arg : option (list string))
    (image_transform_arg map_transform_arg : transform Img)
  : Imp1kDataset Img :=
  cache_image_map_paths
    {| categories := or_default categories_arg Imp1kCategories.all;
       image_transform := image_transform_arg;
       map_transform := map_transform_arg;
       downloader := new_downloader w root URL;
       cache_image_map_paths_cashed := false;
       image_map_pair_cache := [] |}.

(** [__len__]. *)
Definition length (self : Imp1kDataset Img) : Z :=
  len (image_map_pair_cache self).

(** The part of [__getitem__] after the catalog lookup. *)
Definition load (self : Imp1kDataset Img) (pair : string * string)
  : result (Img * Img) :=
  let '(image_path, map_path) := pair in
  image <- open_image w image_path ;;
  map_image <- open_image w map_path ;;
  let image :=
    match image_transform self with
    | Some t => t image
    | None => image
    end in
  let map_image :=
    match map_transform self with
    | Some t => t map_image
    | None =>
        match image_transform self with
        | Some t => t map_image
        | None => map_image
        end
    end in
  Return (image, map_image).

(** [__getitem__]. *)
Definition getitem (self : Imp1kDataset Img) (index : Z)
  : result (Img * Img) :=
  pair <- Py.getitem (image_map_pair_cache self) index ;;
  load self pair.

End Methods.

End Imp1k.

(* ================================================================== *)
(** * dataset/salicon.py *)
(* ================================================================== *)

Module Salicon.

Definition IMAGE_ID := "16RKP-gtuZrbA_L5zLDjO-Fxke_9dIpB3".
Definition MAPS_ID := "16OlRr5sfLFrw322Hqadi9E4oKXWPjriw".

Record SALICONDataset (Img : Type) : Type := {
  categories : list string;
  image_transform : transform Img;
  map_transform : transform Img;
  image_downloader : Downloader;
  map_downloader : Downloader;
  image_map_pair_cache : list (string * string)
}.
Arguments categories {Img} _.
Arguments image_transform {Img} _.
Arguments map_transform {Img} _.
Arguments image_downloader {Img} _.
Arguments map_downloader {Img} _.
Arguments image_map_pair_cache {Img} _.

Section Methods.
Context {Img : Type} (w : World Img).

(** [self.image_map_pair_cache.extend(pairs)]. *)
Definition extend_pairs (self : SALICONDataset Img)
    (pairs : list (string * string)) : SALICONDataset Img :=
  {| categories := categories self;
     image_transform := image_transform self;
     map_transform := map_transform self;
     image_downloader := image_downloader self;
     map_downloader := map_downloader self;
     image_map_pair_cache := image_map_pair_cache self ++ pairs |}.

(** Body of the [for category in self.categories] loop.  The path
    objects are rendered as strings: [a / b / c] is [path_join a [b; c]]
    and [d.glob(pat)] is the glob of [d / pat].  The normalisation pathlib
    applies on top ([.] components and doubled separators are dropped) is
    not rendered: what is listed is what matters below, not how the
    directory is spelled. *)
Definition category_step (self : SALICONDataset Img) (category : string)
  : SALICONDataset Img :=
  let images_dir :=
    path_join (extract_path (image_downloader self)) [category; "images"] in
  let maps_dir :=
    path_join (extract_path (map_downloader self)) [category; "maps"] in
  let images_path_list := sorted (glob w (path_join images_dir ["*.jpg"])) in
  let maps_path_list := sorted (glob w (path_join maps_dir ["*.png"])) in
  extend_pairs self (zip images_path_list maps_path_list).

Definition cache_image_map_paths (self : SALICONDataset Img)
  : SALICONDataset Img :=
  fold_left category_step (categories self) self.

(** [SALICONDataset.__init__]. *)
Definition init (root : string) (categories_arg : option (list string))
    (image_transform_arg map_transform_arg : transform Img)
  : SALICONDataset Img :=
  cache_image_map_paths
    {| categories := or_default categories_arg ["test"; "train"];
       image_transform := image_transform_arg;
       map_transform := map_transform_arg;
       image_downloader :=
         new_gdrive_downloader w (root ++ "/salicon") IMAGE_ID "images.zip";
       map_downloader :=
         new_gdrive_downloader w (root ++ "/salicon") MAPS_ID "maps.zip";
       image_map_pair_cache := [] |}.

(** [__len__]. *)
Definition length (self : SALICONDataset Img) : Z :=
  len (image_map_pair_cache self).

(** The part of [__getitem__] after the catalog lookup. *)
Definition load (self : SALICONDataset Img) (pair : string * string)
  : result (Img * Img) :=
  let '(image_path, map_path) := pair in
  image <- open_image w image_path ;;
  let image := convert w "RGB" image in
  map_image <- open_image w map_path ;;
  let map_image := convert w "L" map_image in
  match image_transform self with
  | Some t =>
      let image := t image in
      let map_image :=
        match map_transform self with
        | Some m => m map_image
        | None => t map_image
        end in
      Return (image, map_image)
  | None => Return (image, map_image)
  end.

(** [__getitem__]. *)
Definition getitem (self : SALICONDataset Img) (index : Z)
  : result (Img * Img) :=
  pair <- Py.getitem (image_map_pair_cache self) index ;;
  load self pair.

End Methods.

End Salicon.

(* ================================================================== *)
(** * The torch collaborators *)
(* ================================================================== *)

(** The four metric families of [SaliencyModel]. *)
Inductive metric : Type := KLDiv | Sim | SCC | AUROC.

(** The network, the criterion, autograd and the optimizer are opaque to
    the code under study.  [forward] and [criterion] are functions of their
    arguments (the parameter values, the train/eval mode and the input);
    [backward] adds the gradient of the loss of one batch to the stored
    gradients; [optimizer_step] reads the gradients and yields the new
    optimizer state and parameters.  The conversions and [normalized] come
    from [illust_salmap/training/metrics.py], the accumulators from
    torchmetrics. *)
Record Torch : Type := {
  Tensor : Type;
  Params : Type;
  Grads : Type;
  OptState : Type;
  Acc : Type;
  forward : Params -> bool -> Tensor -> Tensor;
  criterion : Tensor -> Tensor -> Q;
  zero_grads : Grads;
  backward : Params -> bool -> Tensor -> Tensor -> Grads -> Grads;
  optimizer_step : OptState -> Grads -> Params -> OptState * Params;
  convert_metric : metric -> Tensor -> Tensor -> Tensor * Tensor;
  metric_update : metric -> Acc -> Tensor -> Tensor -> Acc;
  normalized : Tensor -> Tensor;
  sample0 : Tensor -> Tensor   (* t[0] *)
}.

(** Calls on the model and the optimizer, in the order they are made. *)
Inductive call : Type :=
| CallTrain       (* model.train() *)
| CallEval        (* model.eval() *)
| CallZeroGrad    (* optimizer.zero_grad() *)
| CallForward     (* model(image) *)
| CallBackward    (* loss.backward() / manual_backward(loss) *)
| CallStep.       (* optimizer.step() *)

(* ================================================================== *)
(** * illust_salmap/training/train.py *)
(* ================================================================== *)

Module Train.

Section Runners.
Context (T : Torch).

(** The objects [train], [validation] and [test] are handed: the model
    (parameters, gradients, mode) and the optimizer; [calls] records
    what was invoked on them. *)
Record Session : Type := {
  params : Params T;
  grads : Grads T;
  opt_state : OptState T;
  training : bool;
  calls : list call
}.

Definition batch : Type := (Tensor T * Tensor T)%type.

Definition model_train (s : Session) : Session :=
  {| params := params s; grads := grads s; opt_state := opt_state s;
     training := true; calls := calls s ++ [CallTrain] |}.

Definition model_eval (s : Session) : Session :=
  {| params := params s; grads := grads s; opt_state := opt_state s;
     training := false; calls := calls s ++ [CallEval] |}.

Definition zero_grad (s : Session) : Session :=
  {| params := params s; grads := zero_grads T; opt_state := opt_state s;
     training := training s; calls := calls s ++ [CallZeroGrad] |}.

(** [predict = model(image)]. *)
Definition model_call (s : Session) (image : Tensor T)
  : Session * Tensor T :=
  ({| params := params s; grads := grads s; opt_state := opt_state s;
      training := training s; calls := calls s ++ [CallForward] |},
   forward T (params s) (training s) image).

(** [loss.backward()] for the loss of [(image, ground_truth)]. *)
Definition loss_backward (s : Session) (image ground_truth : Tensor T)
  : Session :=
  {| params := params s;
     grads := backward T (params s) (training s) image ground_truth (grads s);
     opt_state := opt_state s;
     training := training s; calls := calls s ++ [CallBackward] |}.

Definition optimizer_step_call (s : Session) : Session :=
  let '(o, p) := optimizer_step T (opt_state s) (grads s) (params s) in
  {| params := p; grads := grads s; opt_state := o;
     training := training s; calls := calls s ++ [CallStep] |}.

(** The returned dict [{"loss": value}]. *)
Definition loss_dict (value : Q) : list (string * Q) := [("loss", value)].

(** Body of the loop of [train]; [.to(device)] moves a tensor and keeps
    its value. *)
Definition train_batch (acc : Session * Q) (b : batch) : Session * Q :=
  let '(s, epoch_loss) := acc in
  let '(image, ground_truth) := b in
  let s := zero_grad s in
  let '(s, predict) := model_call s image in
  let loss := criterion T predict ground_truth in
  let epoch_loss := (epoch_loss + loss)%Q in
  let s := loss_backward s image ground_truth in
  let s := optimizer_step_call s in
  (s, epoch_loss).

Definition train (s : Session) (dataloader : list batch)
  : Session * result (list (string * Q)) :=
  let s := model_train s in
  let '(s, epoch_loss) := fold_left train_batch dataloader (s, 0%Q) in
  (s, v <- truediv epoch_loss (len dataloader) ;; Return (loss_dict v)).

(** Body of the loop of [validation] and of [test]. *)
Definition eval_batch (acc : Session * Q) (b : batch) : Session * Q :=
  let '(s, epoch_loss) := acc in
  let '(image, ground_truth) := b in
  let '(s, predict) := model_call s image in
  let loss := criterion T predict ground_truth in
  let epoch_loss := (epoch_loss + loss)%Q in
  (s, epoch_loss).

Definition validation (s : Session) (dataloader : list batch)
  : Session * result (list (string * Q)) :=
  let s := model_eval s in
  let '(s, epoch_loss) := fold_left eval_batch dataloader (s, 0%Q) in
  (s, v <- truediv epoch_loss (len dataloader) ;; Return (loss_dict v)).

(** [model.to(device)] keeps the parameter values. *)
Definition test (s : Session) (dataloader : list batch)
  : Session * result (list (string * Q)) :=
  let s := model_eval s in
  let '(s, epoch_loss) := fold_left eval_batch dataloader (s, 0%Q) in
  (s, v <- truediv epoch_loss (len dataloader) ;; Return (loss_dict v)).

End Runners.

Arguments params {T} _.
Arguments grads {T} _.
Arguments opt_state {T} _.
Arguments training {T} _.
Arguments calls {T} _.

End Train.

(* ================================================================== *)
(** * illust_salmap/models/saliency_model.py *)
(* ================================================================== *)

Module Saliency.

Inductive logger : Type := TensorBoardLogger | OtherLogger.

Definition is_tensorboard (l : logger) : bool :=
  match l with
  | TensorBoardLogger => true
  | OtherLogger => false
  end.

(** The attributes of [self.trainer] the hooks read. *)
Record Trainer : Type := {
  num_training_batches : Z;
  num_test_batches : list Z;
  current_epoch : Z
}.

Section Model.
Context (T : Torch).

(** The four accumulators of one split. *)
Record Metrics : Type := {
  kl_div : Acc T;
  sim : Acc T;
  scc : Acc T;
  auroc : Acc T
}.

(** What [self.log(name, value)] is given: a loss or a metric object. *)
Inductive log_value : Type :=
| LossValue (v : Q)
| MetricValue (a : Acc T).

(** The three-panel plot drawn by [save_image]. *)
Record Figure : Type := {
  suptitle : string;
  input_image : Tensor T;
  ground_truth_image : Tensor T;
  predict_image : Tensor T
}.

Record SaliencyModel : Type := {
  net : Train.Session T;      (* self.model, its gradients, the optimizer *)
  train_metrics : Metrics;
  val_metrics : Metrics;
  test_metrics : Metrics;
  logged : list (string * log_value);
  trainer : Trainer;
  loggers : list logger;
  figures : list Figure;      (* every figure drawn, in order *)
  tensorboard : list (string * Figure * Z)   (* add_image(tag, data, step) *)
}.

Definition batch : Type := (Tensor T * Tensor T)%type.

Definition set_net (self : SaliencyModel) (n : Train.Session T)
  : SaliencyModel :=
  {| net := n; train_metrics := train_metrics self;
     val_metrics := val_metrics self; test_metrics := test_metrics self;
     logged := logged self; trainer := trainer self; loggers := loggers self;
     figures := figures self; tensorboard := tensorboard self |}.

Definition set_train_metrics (self : SaliencyModel) (m : Metrics)
  : SaliencyModel :=
  {| net := net self; train_metrics := m;
     val_metrics := val_metrics self; test_metrics := test_metrics self;
     logged := logged self; trainer := trainer self; loggers := loggers self;
     figures := figures self; tensorboard := tensorboard self |}.

Definition set_val_metrics (self : SaliencyModel) (m : Metrics)
  : SaliencyModel :=
  {| net := net self; train_metrics := train_metrics self;
     val_metrics := m; test_metrics := test_metrics self;
     logged := logged self; trainer := trainer self; loggers := loggers self;
     figures := figures self; tensorboard := tensorboard self |}.

Definition set_test_metrics (self : SaliencyModel) (m : Metrics)
  : SaliencyModel :=
  {| net := net self; train_metrics := train_metrics self;
     val_metrics := val_metrics self; test_metrics := m;
     logged := logged self; trainer := trainer self; loggers := loggers self;
     figures := figures self; tensorboard := tensorboard self |}.

Definition set_trainer (self : SaliencyModel) (t : Trainer) : SaliencyModel :=
  {| net := net self; train_metrics := train_metrics self;
     val_metrics := val_metrics self; test_metrics := test_metrics self;
     logged := logged self; trainer := t; loggers := loggers self;
     figures := figures self; tensorboard := tensorboard self |}.

(** A run of [self.log(...)] calls. *)
Definition log (self : SaliencyModel) (entries : list (string * log_value))
  : SaliencyModel :=
  {| net := net self; train_metrics := train_metrics self;
     val_metrics := val_metrics self; test_metrics := test_metrics self;
     logged := logged self ++ entries; trainer := trainer self;
     loggers := loggers self;
     figures := figures self; tensorboard := tensorboard self |}.

(** [self.forward(x)], that is [self.model(x)]. *)
Definition forward_call (self : SaliencyModel) (x : Tensor T)
  : SaliencyModel * Tensor T :=
  let '(n, y) := Train.model_call T (net self) x in
  (set_net self n, y).

(** The four [convert_*] calls followed by the four accumulator updates of
    one split; [detach().clone().cpu()] copies a tensor and keeps its
    value. *)
Definition update_metrics (m : Metrics) (predict ground_truth : Tensor T)
  : Metrics :=
  let detached_pred := predict in
  let detached_ground := ground_truth in
  let '(kl_div_pred, kl_div_ground) :=
    convert_metric T KLDiv detached_pred detached_ground in
  let '(sim_pred, sim_ground) :=
    convert_metric T Sim detached_pred detached_ground in
  let '(scc_pred, scc_ground) :=
    convert_metric T SCC detached_pred detached_ground in
  let '(auroc_pred, auroc_ground) :=
    convert_metric T AUROC detached_pred detached_ground in
  {| kl_div := metric_update T KLDiv (kl_div m) kl_div_pred kl_div_ground;
     sim := metric_update T Sim (sim m) sim_pred sim_ground;
     scc := metric_update T SCC (scc m) scc_pred scc_ground;
     auroc := metric_update T AUROC (auroc m) auroc_pred auroc_ground |}.

(** The five [self.log] calls of a step, for the split named [prefix]. *)
Definition log_entries (prefix : string) (loss : Q) (m : Metrics)
  : list (string * log_value) :=
  [ (prefix ++ "_loss", LossValue loss);
    (prefix ++ "_kl_div", MetricValue (kl_div m));
    (prefix ++ "_sim", MetricValue (sim m));
    (prefix ++ "_scc", MetricValue (scc m));
    (prefix ++ "_auroc", MetricValue (auroc m)) ].

Definition training_step (self : SaliencyModel) (b : batch) (batch_idx : Z)
  : SaliencyModel * Q :=
  let self := set_net self (Train.zero_grad T (net self)) in
  let '(image, ground_truth) := b in
  let '(self, predict) := forward_call self image in
  let loss := criterion T predict ground_truth in
  let self :=
    set_train_metrics self
      (update_metrics (train_metrics self) predict ground_truth) in
  let self := log self (log_entries "train" loss (train_metrics self)) in
  let self :=
    set_net self (Train.loss_backward T (net self) image ground_truth) in
  let self := set_net self (Train.optimizer_step_call T (net self)) in
  (self, loss).

Definition validation_step (self : SaliencyModel) (b : batch) (batch_idx : Z)
  : SaliencyModel * Q :=
  let '(image, ground_truth) := b in
  let '(self, predict) := forward_call self image in
  let loss := criterion T predict ground_truth in
  let self :=
    set_val_metrics self
      (update_metrics (val_metrics self) predict ground_truth) in
  let self := log self (log_entries "val" loss (val_metrics self)) in
  (self, loss).

(** [test_step] returns nothing. *)
Definition test_step (self : SaliencyModel) (b : batch) (batch_idx : Z)
  : SaliencyModel :=
  let '(image, ground_truth) := b in
  let '(self, predict) := forward_call self image in
  let loss := criterion T predict ground_truth in
  let self :=
    set_test_metrics self
      (update_metrics (test_metrics self) predict ground_truth) in
  log self (log_entries "test" loss (test_metrics self)).

(** How a method of the module can end other than by returning: with an
    exception of a built-in operation, or with the [TypeError] that comes
    out of [add_image]. *)
Inductive raised : Type :=
| Builtin (e : exception)
| TypeError.

(** How a method ended.  A method that raises has already made the changes
    that precede the raise, so every method below yields the module as it
    left it together with its ending. *)
Inductive ending : Type :=
| Returned
| Raised (r : raised).

(** The buffer [save_image] builds from the canvas,
    [image_data.reshape(fig.canvas.get_width_height()[::-1] + (3,))]: its
    shape is (height, width, 3) in pixels, for [figsize=(11, 8)] and
    [dpi=350]. *)
Definition image_data_shape : Z * Z * Z := (8 * 350, 11 * 350, 3).

(** [experiment.add_image(tag, img_tensor, global_step=step)] of a
    TensorBoard writer.  [dataformats] is left at its default, ['CHW'], so
    the first axis of [img_tensor] is taken for the channels; an image can
    be built from one to four channels, and any other count ends in
    [TypeError] ([None]). *)
Definition add_image (board : list (string * Figure * Z)) (tag : string)
    (shape : Z * Z * Z) (data : Figure) (step : Z)
  : option (list (string * Figure * Z)) :=
  let '(channels, _, _) := shape in
  if (1 <=? channels) && (channels <=? 4)
  then Some (board ++ [(tag, data, step)])%list
  else None.

(** [plt.subplots], the three [imshow] and [fig.canvas.draw()]. *)
Definition draw (self : SaliencyModel) (fig : Figure) : SaliencyModel :=
  {| net := net self; train_metrics := train_metrics self;
     val_metrics := val_metrics self; test_metrics := test_metrics self;
     logged := logged self; trainer := trainer self; loggers := loggers self;
     figures := figures self ++ [fig]; tensorboard := tensorboard self |}.

Definition set_tensorboard (self : SaliencyModel)
    (board : list (string * Figure * Z)) : SaliencyModel :=
  {| net := net self; train_metrics := train_metrics self;
     val_metrics := val_metrics self; test_metrics := test_metrics self;
     logged := logged self; trainer := trainer self; loggers := loggers self;
     figures := figures self; tensorboard := board |}.

(** The loop [for logger in self.loggers] of [save_image]. *)
Fixpoint hand_to_loggers (self : SaliencyModel) (remaining : list logger)
    (tag : string) (fig : Figure) (epoch : Z) : SaliencyModel * ending :=
  match remaining with
  | [] => (self, Returned)
  | logger :: rest =>
      if is_tensorboard logger then
        match add_image (tensorboard self) tag image_data_shape fig epoch with
        | Some board =>
            hand_to_loggers (set_tensorboard self board) rest tag fig epoch
        | None => (self, Raised TypeError)
        end
      else hand_to_loggers self rest tag fig epoch
  end.

(** [save_image]; [plt.close(fig)] is reached when the loop returns. *)
Definition save_image (self : SaliencyModel) (stage : string) (epoch : Z)
    (images ground_truths predicts : Tensor T) : SaliencyModel * ending :=
  let images := normalized T images in
  let ground_truths := normalized T ground_truths in
  let predicts := normalized T predicts in
  let fig :=
    {| suptitle := stage ++ " epoch: " ++ str_of_int epoch;
       input_image := sample0 T images;
       ground_truth_image := sample0 T ground_truths;
       predict_image := sample0 T predicts |} in
  let self := draw self fig in
  let tag := stage ++ "_images_epoch_" ++ str_of_int epoch in
  hand_to_loggers self (loggers self) tag fig epoch.

Definition on_train_batch_end (self : SaliencyModel) (outputs : Q)
    (b : batch) (batch_idx : Z) : SaliencyModel * ending :=
  if batch_idx =? num_training_batches (trainer self) - 1 then
    let '(image, ground_truth) := b in
    let '(self, predict) := forward_call self image in
    save_image self "training" (current_epoch (trainer self))
      image ground_truth predict
  else (self, Returned).

Definition on_validation_batch_end (self : SaliencyModel) (outputs : Q)
    (b : batch) (batch_idx : Z) : SaliencyModel * ending :=
  if batch_idx =? 0 then
    let '(image, ground_truth) := b in
    let '(self, predict) := forward_call self image in
    save_image self "validation" (current_epoch (trainer self))
      image ground_truth predict
  else (self, Returned).

(** [self.trainer.num_test_batches[0]] is a list access. *)
Definition on_test_batch_end (self : SaliencyModel) (b : batch)
    (batch_idx : Z) : SaliencyModel * ending :=
  match Py.getitem (num_test_batches (trainer self)) 0 with
  | Raise e => (self, Raised (Builtin e))
  | Return n =>
      if batch_idx =? n - 1 then
        let '(image, ground_truth) := b in
        let '(self, predict) := forward_call self image in
        save_image self "test" (current_epoch (trainer self))
          image ground_truth predict
      else (self, Returned)
  end.

(** ** The loops of the Lightning trainer

    The trainer is library code.  Over one dataloader it counts the batches
    into [num_training_batches] (or [num_test_batches], one entry per
    dataloader), puts the module in train or eval mode, and for each batch,
    in order and with its index, calls the step and then the batch-end
    hook; an exception of the hook ends the pass. *)

(** [enumerate(batches)]. *)
Definition enumerate {A : Type} (l : list A) : list (Z * A) :=
  combine (map Z.of_nat (seq 0 (List.length l))) l.

(** One round of the training loop: the step, then the batch-end hook. *)
Definition training_batch (self : SaliencyModel) (ib : Z * batch)
  : SaliencyModel * ending :=
  let '(batch_idx, b) := ib in
  let '(self, outputs) := training_step self b batch_idx in
  on_train_batch_end self outputs b batch_idx.

Definition validation_batch (self : SaliencyModel) (ib : Z * batch)
  : SaliencyModel * ending :=
  let '(batch_idx, b) := ib in
  let '(self, outputs) := validation_step self b batch_idx in
  on_validation_batch_end self outputs b batch_idx.

Definition test_batch (self : SaliencyModel) (ib : Z * batch)
  : SaliencyModel * ending :=
  let '(batch_idx, b) := ib in
  let self := test_step self b batch_idx in
  on_test_batch_end self b batch_idx.

(** A loop whose body may raise: the first exception ends it, and what the
    rounds so far have done stays done. *)
Fixpoint for_each {A B : Type} (body : A -> B -> A * ending) (l : list B)
    (a : A) : A * ending :=
  match l with
  | [] => (a, Returned)
  | b :: rest =>
      let '(a', e) := body a b in
      match e with
      | Returned => for_each body rest a'
      | Raised r => (a', Raised r)
      end
  end.

Definition begin_training_epoch (self : SaliencyModel) (batches : list batch)
  : SaliencyModel :=
  let self :=
    set_trainer self
      {| num_training_batches := len batches;
         num_test_batches := num_test_batches (trainer self);
         current_epoch := current_epoch (trainer self) |} in
  set_net self (Train.model_train T (net self)).

Definition begin_validation_pass (self : SaliencyModel) : SaliencyModel :=
  set_net self (Train.model_eval T (net self)).

Definition begin_test_pass (self : SaliencyModel) (batches : list batch)
  : SaliencyModel :=
  let self :=
    set_trainer self
      {| num_training_batches := num_training_batches (trainer self);
         num_test_batches := [len batches];
         current_epoch := current_epoch (trainer self) |} in
  set_net self (Train.model_eval T (net self)).

Definition training_epoch (self : SaliencyModel) (batches : list batch)
  : SaliencyModel * ending :=
  for_each training_batch (enumerate batches)
    (begin_training_epoch self batches).

Definition validation_pass (self : SaliencyModel) (batches : list batch)
  : SaliencyModel * ending :=
  for_each validation_batch (enumerate batches) (begin_validation_pass self).

Definition test_pass (self : SaliencyModel) (batches : list batch)
  : SaliencyModel * ending :=
  for_each test_batch (enumerate batches) (begin_test_pass self batches).

(** ** Observing the snapshots of a pass

    [snapshot_batches body l self] runs the loop as [for_each] does and
    lists, in order, the batch indices during whose round [save_image] was
    called, that is, a figure was drawn; the round that raises counts like
    the others. *)
Definition drew (before after : SaliencyModel) : bool :=
  (List.length (figures before) <? List.length (figures after))%nat.

Fixpoint snapshot_batches (body : SaliencyModel -> Z * batch -> SaliencyModel * ending)
    (l : list (Z * batch)) (self : SaliencyModel) : list Z :=
  match l with
  | [] => []
  | ib :: rest =>
      let '(self', e) := body self ib in
      (if drew self self' then [fst ib] else [])
      ++ match e with
         | Returned => snapshot_batches body rest self'
         | Raised _ => []
         end
  end.

Definition training_snapshots (self : SaliencyModel) (batches : list batch)
  : list Z :=
  snapshot_batches training_batch (enumerate batches)
    (begin_training_epoch self batches).

Definition validation_snapshots (self : SaliencyModel) (batches : list batch)
  : list Z :=
  snapshot_batches validation_batch (enumerate batches)
    (begin_validation_pass self).

Definition test_snapshots (self : SaliencyModel) (batches : list batch)
  : list Z :=
  snapshot_batches test_batch (enumerate batches)
    (begin_test_pass self batches).

End Model.

Arguments net {T} _.
Arguments train_metrics {T} _.
Arguments val_metrics {T} _.
Arguments test_metrics {T} _.
Arguments logged {T} _.
Arguments trainer {T} _.
Arguments loggers {T} _.
Arguments figures {T} _.
Arguments tensorboard {T} _.
Arguments suptitle {T} _.
Arguments input_image {T} _.
Arguments ground_truth_image {T} _.
Arguments predict_image {T} _.

End Saliency.

(* ================================================================== *)
(** * The specification's vocabulary *)
(* ================================================================== *)

(** "The two paths' base filenames are byte-equal." *)
Definition same_basename (pair : string * string) : bool :=
  String.eqb (basename (fst pair)) (basename (snd pair)).

(** The two listings of one Imp1k category, as globbed. *)
Definition imp1k_images {Img : Type} (w : World Img) (d : Downloader)
    (category : string) : list string :=
  glob w (path_join (extract_path d ++ "/imgs") [category; "*.jpg"]).

Definition imp1k_maps {Img : Type} (w : World Img) (d : Downloader)
    (category : string) : list string :=
  glob w (path_join (extract_path d ++ "/maps") [category; "*.jpg"]).

(** "Pair by position after independent sorts", then "if the base
    filenames differ, drop the pair". *)
Definition imp1k_positional_pairs {Img : Type} (w : World Img)
    (d : Downloader) (category : string) : list (string * string) :=
  zip (sorted (imp1k_images w d category)) (sorted (imp1k_maps w d category)).

Definition imp1k_category_pairs {Img : Type} (w : World Img)
    (d : Downloader) (category : string) : list (string * string) :=
  filter same_basename (imp1k_positional_pairs w d category).

(** The two listings of one SALICON category and their positional pairs. *)
Definition salicon_images {Img : Type} (w : World Img) (d : Downloader)
    (category : string) : list string :=
  glob w (path_join (path_join (extract_path d) [category; "images"]) ["*.jpg"]).

Definition salicon_maps {Img : Type} (w : World Img) (d : Downloader)
    (category : string) : list string :=
  glob w (path_join (path_join (extract_path d) [category; "maps"]) ["*.png"]).

Definition salicon_category_pairs {Img : Type} (w : World Img)
    (di dm : Downloader) (category : string) : list (string * string) :=
  zip (sorted (salicon_images w di category))
      (sorted (salicon_maps w dm category)).

(** "Apply [image_transform] to the input if configured; else pass through
    unchanged." *)
Definition input_transformed {Img : Type} (image_transform : transform Img)
    (image : Img) : Img :=
  match image_transform with
  | Some t => t image
  | None => image
  end.

(** "If a dedicated [map_transform] is configured, apply it to the target;
    else, if an [image_transform] is configured, apply that same transform
    to the target as a fallback; else pass the target through unchanged." *)
Definition resolve_target {Img : Type}
    (map_transform image_transform : transform Img) (target : Img) : Img :=
  match map_transform, image_transform with
  | Some m, _ => m target
  | None, Some t => t target
  | None, None => target
  end.

(** "[sum(batch_loss)]" and "[mean_loss = sum(batch_loss) / number_of_batches]". *)
Fixpoint sum_losses (losses : list Q) : Q :=
  match losses with
  | [] => 0%Q
  | l :: rest => (l + sum_losses rest)%Q
  end.

Definition mean_loss (losses : list Q) : Q :=
  (sum_losses losses / inject_Z (len losses))%Q.

(** The loss of one batch under the session's current parameters and mode. *)
Definition batch_loss (T : Torch) (s : Train.Session T) (b : Train.batch T)
  : Q :=
  criterion T (forward T (Train.params s) (Train.training s) (fst b)) (snd b).

(** The per-batch losses L1..LN of a training run started in session [s]:
    each batch is scored under the parameters left by the batches before. *)
Fixpoint train_losses (T : Torch) (s : Train.Session T)
    (dataloader : list (Train.batch T)) : list Q :=
  match dataloader with
  | [] => []
  | b :: rest =>
      batch_loss T s b
      :: train_losses T (fst (Train.train_batch T (s, 0%Q) b)) rest
  end.

(** The per-batch losses of a validation or test run in session [s]. *)
Definition eval_losses (T : Torch) (s : Train.Session T)
    (dataloader : list (Train.batch T)) : list Q :=
  map (batch_loss T s) dataloader.

(* ================================================================== *)
(** * Concrete collaborators for the scenarios *)
(* ================================================================== *)

(** A file system given by what [glob] lists for each pattern. *)
Fixpoint listing (table : list (string * list string)) (pattern : string)
  : list string :=
  match table with
  | [] => []
  | (p, files) :: rest =>
      if String.eqb p pattern then files else listing rest pattern
  end.

(** A world over integer "images": every file opens as [10], conversion
    keeps the value, and every downloader extracts to its root. *)
Definition world_of (table : list (string * list string)) : World Z :=
  {| glob := listing table;
     new_downloader := fun root _ => {| extract_path := root |};
     new_gdrive_downloader := fun root _ _ => {| extract_path := root |};
     image_open := fun _ => Some 10;
     convert := fun _ im => im |}.

(** The scenario of the specification: images [a.jpg, b.jpg, c.jpg] and
    maps [a.jpg, X.jpg, c.jpg] in one Imp1k category. *)
Definition scenario_world : World Z :=
  world_of
    [ ("/data/imgs/ads/*.jpg",
       ["/data/imgs/ads/a.jpg"; "/data/imgs/ads/b.jpg"; "/data/imgs/ads/c.jpg"]);
      ("/data/maps/ads/*.jpg",
       ["/data/maps/ads/a.jpg"; "/data/maps/ads/X.jpg"; "/data/maps/ads/c.jpg"]) ].

(** A SALICON tree with one image and its map in category [train]. *)
Definition salicon_world : World Z :=
  world_of
    [ ("/data/salicon/train/images/*.jpg", ["/data/salicon/train/images/a.jpg"]);
      ("/data/salicon/train/maps/*.png", ["/data/salicon/train/maps/a.png"]) ].

(** A one-parameter linear model [x |-> p * x] with squared error, plain
    gradient descent of rate one, and counting accumulators. *)
Definition toy_torch : Torch :=
  {| Tensor := Z; Params := Z; Grads := Z; OptState := unit; Acc := Z;
     forward := fun p _ x => p * x;
     criterion := fun y g => inject_Z ((y - g) * (y - g));
     zero_grads := 0;
     backward := fun p _ x g acc => acc + 2 * (p * x - g) * x;
     optimizer_step := fun o g p => (o, p - g);
     convert_metric := fun _ y g => (y, g);
     metric_update := fun _ a _ _ => a + 1;
     normalized := fun t => t;
     sample0 := fun t => t |}.

Definition toy_session : Train.Session toy_torch :=
  Train.Build_Session toy_torch 1 0 tt false [].

Definition toy_metrics : Saliency.Metrics toy_torch :=
  Saliency.Build_Metrics toy_torch 0 0 0 0.

Definition toy_model : Saliency.SaliencyModel toy_torch :=
  {| Saliency.net := toy_session;
     Saliency.train_metrics := toy_metrics;
     Saliency.val_metrics := toy_metrics;
     Saliency.test_metrics := toy_metrics;
     Saliency.logged := [];
     Saliency.trainer :=
       {| Saliency.num_training_batches := 0;
          Saliency.num_test_batches := [];
          Saliency.current_epoch := 0 |};
     Saliency.loggers := [Saliency.TensorBoardLogger];
     Saliency.figures := [];
     Saliency.tensorboard := [] |}.

(* ================================================================== *)
(** * illust_salmap/training/train.py: visualize and fit *)
(* ================================================================== *)

Module Fit.

(** What can end [fit]: an exception of a runner, [StopIteration] from
    [next] on an exhausted iterator, [KeyError] from a dict lookup. *)
Inductive raised : Type :=
| Runner (e : exception)
| StopIteration
| KeyError.

Inductive outcome (A : Type) : Type :=
| Finished (a : A)
| Aborted (r : raised).
Arguments Finished {A} a.
Arguments Aborted {A} r.

(** [d[key]] on a dict with string keys. *)
Fixpoint dict_get (d : list (string * Q)) (key : string) : outcome Q :=
  match d with
  | [] => Aborted KeyError
  | (k, v) :: rest => if String.eqb k key then Finished v else dict_get rest key
  end.

(** [range(n)]: empty when [n <= 0]. *)
Definition range (n : Z) : list Z := map Z.of_nat (seq 0 (Z.to_nat n)).

Section Controller.
Context (T : Torch).

(** The datamodule once [prepare_data()] and [setup("fit")] have run: the
    batches its two dataloaders serve, taken to be the same on every
    call. *)
Record DataModule : Type := {
  train_dataloader : list (Train.batch T);
  val_dataloader : list (Train.batch T)
}.

(** [visualize]: [next(iter(dataloader))], then one forward call whose
    result is dropped. *)
Definition visualize (s : Train.Session T) (dataloader : list (Train.batch T))
  : Train.Session T * outcome unit :=
  match dataloader with
  | [] => (s, Aborted StopIteration)
  | (image, ground_truth) :: _ =>
      let '(s, predict) := Train.model_call T s image in
      (s, Finished tt)
  end.

(** Body of the [for epoch in range(epochs)] loop.  Of what it prints, the
    two losses are kept (unformatted); the banner lines are left out. *)
Definition epoch_body (datamodule : DataModule) (s : Train.Session T)
  : Train.Session T * outcome (Q * Q) :=
  let '(s, r) := Train.train T s (train_dataloader datamodule) in
  match r with
  | Raise e => (s, Aborted (Runner e))
  | Return train_metrics =>
      let '(s, r) := Train.validation T s (val_dataloader datamodule) in
      match r with
      | Raise e => (s, Aborted (Runner e))
      | Return val_metrics =>
          let '(s, r) := visualize s (val_dataloader datamodule) in
          match r with
          | Aborted x => (s, Aborted x)
          | Finished _ =>
              match dict_get train_metrics "loss" with
              | Aborted x => (s, Aborted x)
              | Finished train_loss =>
                  match dict_get val_metrics "loss" with
                  | Aborted x => (s, Aborted x)
                  | Finished val_loss => (s, Finished (train_loss, val_loss))
                  end
              end
          end
      end
  end.

(** The loop itself: the first exception ends it. *)
Fixpoint epochs_loop (datamodule : DataModule) (rounds : list Z)
    (s : Train.Session T) (printed : list (Q * Q))
  : Train.Session T * outcome (list (Q * Q)) :=
  match rounds with
  | [] => (s, Finished printed)
  | _ :: rest =>
      let '(s, r) := epoch_body datamodule s in
      match r with
      | Aborted x => (s, Aborted x)
      | Finished losses => epochs_loop datamodule rest s (printed ++ [losses])
      end
  end.

(** [fit]; the outcome carries the losses printed, epoch by epoch. *)
Definition fit (s : Train.Session T) (datamodule : DataModule) (epochs : Z)
  : Train.Session T * outcome (list (Q * Q)) :=
  epochs_loop datamodule (range epochs) s [].

(** The calls one epoch of [fit] makes when nothing raises. *)
Definition train_calls (dataloader : list (Train.batch T)) : list call :=
  CallTrain
  :: flat_map (fun _ => [CallZeroGrad; CallForward; CallBackward; CallStep])
       dataloader.

Definition epoch_calls (datamodule : DataModule) : list call :=
  (train_calls (train_dataloader datamodule)
   ++ (CallEval
       :: repeat CallForward (List.length (val_dataloader datamodule)))
   ++ [CallForward])%list.

End Controller.

Arguments train_dataloader {T} _.
Arguments val_dataloader {T} _.

End Fit.

(* ================================================================== *)
(** * models/salgan_generator.py and models/dummy_net.py *)
(* ================================================================== *)

Module Nn.

(** The exceptions of a forward pass: a call with the wrong number of
    arguments, an attribute that was never set, a layer that rejects its
    input. *)
Inductive error : Type := TypeError | AttributeError | RuntimeError.

Inductive outcome (A : Type) : Type :=
| Ok (a : A)
| Err (e : error).
Arguments Ok {A} a.
Arguments Err {A} e.

Definition bind {A B : Type} (r : outcome A) (k : A -> outcome B)
  : outcome B :=
  match r with
  | Ok a => k a
  | Err e => Err e
  end.

Section Modules.
Context {Tensor : Type}.

(** A module seen from outside: its [forward] on one tensor. *)
Definition layer : Type := Tensor -> outcome Tensor.

(** Calling a module with positional arguments [args]: [forward] takes
    exactly one. *)
Definition call (m : layer) (args : list Tensor) : outcome Tensor :=
  match args with
  | [x] => m x
  | _ => Err TypeError
  end.

(** [Sequential] of the given layers: they are applied in order. *)
Definition Sequential (layers : list layer) : layer :=
  fun x => fold_left (fun r l => bind r l) layers (Ok x).

(** The submodules an object holds, latest assignment first. *)
Definition attributes : Type := list (string * layer).

(** [self.name = value]. *)
Definition setattr (self : attributes) (name : string) (value : layer)
  : attributes :=
  (name, value) :: self.

(** [self.name]. *)
Fixpoint getattr (self : attributes) (name : string) : outcome layer :=
  match self with
  | [] => Err AttributeError
  | (n, value) :: rest =>
      if String.eqb n name then Ok value else getattr rest name
  end.

(** The torch and torchvision constructors the two files use. *)
Record Library : Type := {
  Upsample : Z -> layer;                       (* scale_factor *)
  Conv2d : Z -> Z -> Z -> Z -> Z -> layer;     (* in, out, kernel, stride, padding *)
  LeakyReLU : layer;
  Sigmoid : layer;
  vgg16_bn_features : list layer               (* vgg16_bn(weights).features *)
}.

End Modules.

Arguments layer : clear implicits.
Arguments attributes : clear implicits.
Arguments Library : clear implicits.

Module DecoderBlock.
Section Methods.
Context {Tensor : Type} (L : Library Tensor).

(** [__init__]: [conv1] is assigned twice, [conv2] never. *)
Definition init (in_channels out_channels : Z) (activation : layer Tensor)
  : attributes Tensor :=
  let self := [] in
  let self := setattr self "upsample" (Upsample L 2) in
  let self := setattr self "conv1" (Conv2d L in_channels in_channels 3 1 1) in
  let self := setattr self "conv1" (Conv2d L in_channels out_channels 3 1 1) in
  setattr self "activation" activation.

(** [forward]; the two [print(x.shape)] are left out. *)
Definition forward (self : attributes Tensor) (x : Tensor) : outcome Tensor :=
  bind (getattr self "upsample") (fun upsample =>
  bind (call upsample [x]) (fun x =>
  bind (getattr self "conv1") (fun conv1 =>
  bind (call conv1 [x]) (fun x =>
  bind (getattr self "activation") (fun activation =>
  bind (call activation [x]) (fun x =>
  bind (getattr self "conv2") (fun conv2 =>
  bind (call conv2 [x]) (fun x =>
  bind (getattr self "activation") (fun activation =>
  call activation [x]))))))))).

End Methods.
End DecoderBlock.

Module SalGANGenerator.
Section Methods.
Context {Tensor : Type} (L : Library Tensor).

(** [features[17:-1]]. *)
Definition slice_17_to_last (features : list (layer Tensor))
  : list (layer Tensor) :=
  skipn 17 (removelast features).

(** [__init__]; [head] is [None] or a module, and [head or Sigmoid()] keeps
    a module given. *)
Definition init (head : option (layer Tensor)) : attributes Tensor :=
  let features := vgg16_bn_features L in
  let self := [] in
  let self := setattr self "encoder_fist" (Sequential (firstn 17 features)) in
  let self :=
    setattr self "encoder_last" (Sequential (slice_17_to_last features)) in
  let self :=
    setattr self "decoder"
      (Sequential
         [DecoderBlock.forward (DecoderBlock.init L 512 256 (LeakyReLU L))]) in
  setattr self "head"
    match head with
    | Some h => h
    | None => Sigmoid L
    end.

(** [forward]: the second encoder half is called without an argument. *)
Definition forward (self : attributes Tensor) (x : Tensor) : outcome Tensor :=
  bind (getattr self "encoder_fist") (fun encoder_fist =>
  bind (call encoder_fist [x]) (fun x =>
  bind (getattr self "encoder_last") (fun encoder_last =>
  bind (call encoder_last []) (fun x =>
  bind (getattr self "decoder") (fun decoder =>
  bind (call decoder [x]) (fun x =>
  bind (getattr self "head") (fun head =>
  call head [x]))))))).

End Methods.
End SalGANGenerator.

(** ** DummyNet, at the level of tensor shapes

    A tensor is abstracted to its shape [(N, C, H, W)]; each layer maps a
    shape to the shape torch documents for it, or rejects it ([None]: a
    channel mismatch or an output without rows or columns). *)
Module DummyNet.

Record shape : Type := { batch : Z; channels : Z; height : Z; width : Z }.

Definition checked (n c h w : Z) : option shape :=
  if (0 <? h) && (0 <? w)
  then Some {| batch := n; channels := c; height := h; width := w |}
  else None.

(** [Conv2d(c_in, c_out, kernel, stride, padding)]:
    [out = floor((in + 2 * padding - kernel) / stride) + 1]. *)
Definition Conv2d (c_in c_out kernel stride padding : Z) (x : shape)
  : option shape :=
  if channels x =? c_in
  then checked (batch x) c_out
         ((height x + 2 * padding - kernel) / stride + 1)
         ((width x + 2 * padding - kernel) / stride + 1)
  else None.

(** [MaxPool2d(kernel, stride)]: [out = floor((in - kernel) / stride) + 1]. *)
Definition MaxPool2d (kernel stride : Z) (x : shape) : option shape :=
  checked (batch x) (channels x)
    ((height x - kernel) / stride + 1)
    ((width x - kernel) / stride + 1).

(** [ConvTranspose2d(c_in, c_out, kernel, stride, padding)]:
    [out = (in - 1) * stride - 2 * padding + kernel]. *)
Definition ConvTranspose2d (c_in c_out kernel stride padding : Z) (x : shape)
  : option shape :=
  if channels x =? c_in
  then checked (batch x) c_out
         ((height x - 1) * stride - 2 * padding + kernel)
         ((width x - 1) * stride - 2 * padding + kernel)
  else None.

(** [LeakyReLU()] and [Sigmoid()] act elementwise. *)
Definition elementwise (x : shape) : option shape := Some x.

Definition then_ (f g : shape -> option shape) (x : shape) : option shape :=
  match f x with
  | Some y => g y
  | None => None
  end.

(** [self.encoder], [self.decoder] and [self.head] of
    [DummyNet(in_channels, classes)]. *)
Definition encoder (in_channels : Z) : shape -> option shape :=
  then_ (Conv2d in_channels 32 3 1 1) (then_ (MaxPool2d 2 2) elementwise).

Definition decoder (classes : Z) : shape -> option shape :=
  then_ (ConvTranspose2d 32 classes 4 2 1) elementwise.

Definition head : shape -> option shape := elementwise.

(** [forward]. *)
Definition forward (in_channels classes : Z) : shape -> option shape :=
  then_ (encoder in_channels) (then_ (decoder classes) head).

End DummyNet.

End Nn.

(** A library of integer "tensors" whose layers all succeed. *)
Definition toy_library : Nn.Library Z :=
  {| Nn.Upsample := fun k x => Nn.Ok (k * x);
     Nn.Conv2d := fun _ _ _ _ _ x => Nn.Ok (x + 1);
     Nn.LeakyReLU := fun x => Nn.Ok x;
     Nn.Sigmoid := fun x => Nn.Ok x;
     Nn.vgg16_bn_features := repeat (fun x => Nn.Ok x) 44 |}.

(** Two batches for training and one for validation. *)
Definition toy_datamodule : Fit.DataModule toy_torch :=
  Fit.Build_DataModule toy_torch [(1, 2); (2, 2)] [(3, 3)].

(* ================================================================== *)
(** * Further vocabulary and collaborators *)
(* ================================================================== *)

(** "A clear ZeroBatches error": the fault the specification asks of an
    epoch over no batches, as against the exceptions Python raises on its
    own. *)
Inductive epoch_fault : Type :=
| ZeroBatches
| PythonException (e : exception).

(** The fault a runner's result shows.  train.py has no [raise] statement
    and defines no exception class: whatever comes out of a runner is an
    exception that Python or a library raised. *)
Definition fault_of {A : Type} (r : result A) : option epoch_fault :=
  match r with
  | Return _ => None
  | Raise e => Some (PythonException e)
  end.

(** The sessions [fit] starts its first [n] epochs with. *)
Fixpoint epoch_sessions (T : Torch) (datamodule : Fit.DataModule T) (n : nat)
    (s : Train.Session T) : list (Train.Session T) :=
  match n with
  | O => []
  | S k =>
      s :: epoch_sessions T datamodule k (fst (Fit.epoch_body T datamodule s))
  end.

(** "The mean training loss and the mean validation loss of an epoch": what
    an entry of the report of [fit] should hold for the epoch started in
    session [s]. *)
Definition reports_epoch_means (T : Torch) (datamodule : Fit.DataModule T)
    (s : Train.Session T) (entry : Q * Q) : Prop :=
  (fst entry
   == mean_loss
        (train_losses T (Train.model_train T s)
           (Fit.train_dataloader datamodule)))%Q
  /\ (snd entry
      == mean_loss
           (eval_losses T
              (Train.model_eval T
                 (fst (Train.train T s (Fit.train_dataloader datamodule))))
              (Fit.val_dataloader datamodule)))%Q.

(** The module of [toy_model] with a logger that is not a TensorBoard
    logger. *)
Definition toy_model_plain : Saliency.SaliencyModel toy_torch :=
  {| Saliency.net := toy_session;
     Saliency.train_metrics := toy_metrics;
     Saliency.val_metrics := toy_metrics;
     Saliency.test_metrics := toy_metrics;
     Saliency.logged := [];
     Saliency.trainer :=
       {| Saliency.num_training_batches := 0;
          Saliency.num_test_batches := [];
          Saliency.current_epoch := 0 |};
     Saliency.loggers := [Saliency.OtherLogger];
     Saliency.figures := [];
     Saliency.tensorboard := [] |}.

(* ================================================================== *)
(** * Properties: the paired-sample catalogs *)
(* ================================================================== *)

Open Scope list_scope.

Section CatalogFacts.
Context {Img : Type} (w : World Img).

(** [sorted] keeps every file of the listing. *)
Lemma insert_sorted_length (x : string) (l : list string) :
  List.length (insert_sorted x l) = S (List.length l).
Proof.
  induction l as [|y l IH]; simpl; [reflexivity|].
  destruct (String.leb x y); simpl; [reflexivity|].
  now rewrite IH.
Qed.

Lemma sorted_length (l : list string) :
  List.length (sorted l) = List.length l.
Proof.
  unfold sorted.
  induction l as [|x l IH]; simpl; [reflexivity|].
  now rewrite insert_sorted_length, IH.
Qed.

(** [sorted] returns the files of the listing, rearranged in ascending
    lexicographic order. *)
Lemma insert_sorted_perm (x : string) (l : list string) :
  Permutation (x :: l) (insert_sorted x l).
Proof.
  induction l as [|y l IH]; simpl; [apply Permutation_refl|].
  destruct (String.leb x y); [apply Permutation_refl|].
  eapply perm_trans; [apply perm_swap | now apply perm_skip].
Qed.

Lemma sorted_perm (l : list string) : Permutation l (sorted l).
Proof.
  unfold sorted.
  induction l as [|x l IH]; simpl; [apply perm_nil|].
  eapply perm_trans; [apply perm_skip, IH | apply insert_sorted_perm].
Qed.

Lemma insert_sorted_ascending (x : string) (l : list string) :
  LocallySorted (fun a b => String.leb a b = true) l ->
  LocallySorted (fun a b => String.leb a b = true) (insert_sorted x l).
Proof.
  induction 1 as [|y|y z l Hsorted IH Hyz]; simpl.
  - constructor.
  - destruct (String.leb x y) eqn:Hxy.
    + now repeat constructor.
    + destruct (String.leb_total x y) as [H|H]; [congruence|].
      now repeat constructor.
  - destruct (String.leb x y) eqn:Hxy.
    + now repeat constructor.
    + destruct (String.leb_total x y) as [H|H]; [congruence|].
      simpl in IH. destruct (String.leb x z) eqn:Hxz.
      * now repeat constructor.
      * now constructor.
Qed.

Lemma sorted_ascending (l : list string) :
  LocallySorted (fun a b => String.leb a b = true) (sorted l).
Proof.
  unfold sorted.
  induction l as [|x l IH]; simpl; [constructor|].
  now apply insert_sorted_ascending.
Qed.

(** The inner loop appends, in order, the pairs that pass the filename
    test, and touches nothing else. *)
Lemma imp1k_pair_loop (pairs : list (string * string))
    (self : Imp1k.Imp1kDataset Img) :
  let self' := fold_left Imp1k.pair_step pairs self in
  Imp1k.image_map_pair_cache self'
  = Imp1k.image_map_pair_cache self ++ filter same_basename pairs
  /\ Imp1k.downloader self' = Imp1k.downloader self
  /\ Imp1k.categories self' = Imp1k.categories self
  /\ Imp1k.cache_image_map_paths_cashed self'
     = Imp1k.cache_image_map_paths_cashed self.
Proof.
  cbv zeta. revert self.
  induction pairs as [|[img_path map_path] rest IH]; intros self;
    cbn [fold_left filter].
  - now rewrite app_nil_r.
  - destruct (IH (Imp1k.pair_step self (img_path, map_path)))
      as (Hcache & Hdl & Hcat & Hflag).
    rewrite Hcache, Hdl, Hcat, Hflag.
    unfold Imp1k.pair_step, same_basename; simpl.
    destruct (String.eqb (basename img_path) (basename map_path)); simpl.
    + now rewrite <- app_assoc.
    + auto.
Qed.

Lemma imp1k_category_step (self : Imp1k.Imp1kDataset Img) (category : string) :
  let self' := Imp1k.category_step w self category in
  Imp1k.image_map_pair_cache self'
  = Imp1k.image_map_pair_cache self
    ++ imp1k_category_pairs w (Imp1k.downloader self) category
  /\ Imp1k.downloader self' = Imp1k.downloader self
  /\ Imp1k.categories self' = Imp1k.categories self
  /\ Imp1k.cache_image_map_paths_cashed self'
     = Imp1k.cache_image_map_paths_cashed self.
Proof.
  unfold Imp1k.category_step.
  exact (imp1k_pair_loop _ self).
Qed.

Lemma imp1k_category_loop (cats : list string)
    (self : Imp1k.Imp1kDataset Img) :
  let self' := fold_left (Imp1k.category_step w) cats self in
  Imp1k.image_map_pair_cache self'
  = Imp1k.image_map_pair_cache self
    ++ flat_map (imp1k_category_pairs w (Imp1k.downloader self)) cats
  /\ Imp1k.downloader self' = Imp1k.downloader self
  /\ Imp1k.categories self' = Imp1k.categories self
  /\ Imp1k.cache_image_map_paths_cashed self'
     = Imp1k.cache_image_map_paths_cashed self.
Proof.
  cbv zeta. revert self.
  induction cats as [|category rest IH]; intros self;
    cbn [fold_left flat_map].
  - now rewrite app_nil_r.
  - destruct (IH (Imp1k.category_step w self category))
      as (Hcache & Hdl & Hcat & Hflag).
    destruct (imp1k_category_step self category)
      as (Hcache1 & Hdl1 & Hcat1 & Hflag1).
    rewrite Hcache, Hdl, Hcat, Hflag, Hcache1, Hdl1, Hcat1, Hflag1.
    now rewrite <- app_assoc.
Qed.

(** The catalog of a freshly constructed Imp1k dataset. *)
Lemma imp1k_init_cache (root : string) (cats : option (list string))
    (it mt : transform Img) :
  Imp1k.image_map_pair_cache (Imp1k.init w root cats it mt)
  = flat_map (imp1k_category_pairs w (new_downloader w root Imp1k.URL))
      (or_default cats Imp1k.Imp1kCategories.all).
Proof.
  unfold Imp1k.init, Imp1k.cache_image_map_paths; simpl.
  now destruct (imp1k_category_loop
                  (or_default cats Imp1k.Imp1kCategories.all)
                  (Imp1k.Build_Imp1kDataset Img
                     (or_default cats Imp1k.Imp1kCategories.all) it mt
                     (new_downloader w root Imp1k.URL) false []))
    as (-> & _).
Qed.

(** The guard flag is still [False] after construction: nothing sets it. *)
Lemma imp1k_init_flag (root : string) (cats : option (list string))
    (it mt : transform Img) :
  Imp1k.cache_image_map_paths_cashed (Imp1k.init w root cats it mt) = false.
Proof.
  unfold Imp1k.init, Imp1k.cache_image_map_paths; simpl.
  now destruct (imp1k_category_loop
                  (or_default cats Imp1k.Imp1kCategories.all)
                  (Imp1k.Build_Imp1kDataset Img
                     (or_default cats Imp1k.Imp1kCategories.all) it mt
                     (new_downloader w root Imp1k.URL) false []))
    as (_ & _ & _ & ->).
Qed.

(** With the flag at [False], a further call walks the categories again and
    appends every pair a second time. *)
Lemma imp1k_rebuild_appends (self : Imp1k.Imp1kDataset Img) :
  Imp1k.cache_image_map_paths_cashed self = false ->
  Imp1k.image_map_pair_cache (Imp1k.cache_image_map_paths w self)
  = Imp1k.image_map_pair_cache self
    ++ flat_map (imp1k_category_pairs w (Imp1k.downloader self))
         (Imp1k.categories self).
Proof.
  intros Hflag. unfold Imp1k.cache_image_map_paths. rewrite Hflag.
  now destruct (imp1k_category_loop (Imp1k.categories self) self) as (-> & _).
Qed.

(** The early return: were the flag [True], the call would change nothing. *)
Lemma imp1k_guarded_call_is_noop (self : Imp1k.Imp1kDataset Img) :
  Imp1k.cache_image_map_paths_cashed self = true ->
  Imp1k.cache_image_map_paths w self = self.
Proof.
  intros Hflag. unfold Imp1k.cache_image_map_paths. now rewrite Hflag.
Qed.

(** The SALICON loop appends the positional pairs of every category. *)
Lemma salicon_category_loop (cats : list string)
    (self : Salicon.SALICONDataset Img) :
  let self' := fold_left (Salicon.category_step w) cats self in
  Salicon.image_map_pair_cache self'
  = Salicon.image_map_pair_cache self
    ++ flat_map (salicon_category_pairs w (Salicon.image_downloader self)
                   (Salicon.map_downloader self)) cats
  /\ Salicon.image_downloader self' = Salicon.image_downloader self
  /\ Salicon.map_downloader self' = Salicon.map_downloader self
  /\ Salicon.categories self' = Salicon.categories self.
Proof.
  cbv zeta. revert self.
  induction cats as [|category rest IH]; intros self;
    cbn [fold_left flat_map].
  - now rewrite app_nil_r.
  - destruct (IH (Salicon.category_step w self category))
      as (Hcache & Hdi & Hdm & Hcat).
    rewrite Hcache, Hdi, Hdm, Hcat; simpl.
    now rewrite <- app_assoc.
Qed.

Lemma salicon_init_cache (root : string) (cats : option (list string))
    (it mt : transform Img) :
  Salicon.image_map_pair_cache (Salicon.init w root cats it mt)
  = flat_map
      (salicon_category_pairs w
         (new_gdrive_downloader w (root ++ "/salicon")%string Salicon.IMAGE_ID
            "images.zip")
         (new_gdrive_downloader w (root ++ "/salicon")%string Salicon.MAPS_ID
            "maps.zip"))
      (or_default cats ["test"; "train"]).
Proof.
  unfold Salicon.init, Salicon.cache_image_map_paths; simpl.
  match goal with
  | |- Salicon.image_map_pair_cache (fold_left _ ?c ?s) = _ =>
      now destruct (salicon_category_loop c s) as (-> & _)
  end.
Qed.

(** A successful list access returns a member of the list. *)
Lemma getitem_In {A : Type} (l : list A) (index : Z) (x : A) :
  Py.getitem l index = Return x -> In x l.
Proof.
  unfold Py.getitem.
  destruct ((_ <? 0) || _); [discriminate|].
  destruct (nth_error l _) eqn:Hnth; [|discriminate].
  intros [= <-]. eapply nth_error_In; eauto.
Qed.

End CatalogFacts.

(** C1 (amended).  In every built Imp1k catalog each sample has equal base
    filenames, because the build keeps exactly the positional pairs that
    pass the filename test and drops the others without raising; the SALICON
    build makes no such test and keeps every positional pair of a [*.jpg]
    listing with a [*.png] listing. *)
Theorem C1_imp1k_samples_share_basename :
  forall (Img : Type) (w : World Img) (root : string)
         (cats : option (list string)) (it mt : transform Img),
    Forall (fun sample => basename (fst sample) = basename (snd sample))
      (Imp1k.image_map_pair_cache (Imp1k.init w root cats it mt))
    /\ (forall index sample,
           Py.getitem
             (Imp1k.image_map_pair_cache (Imp1k.init w root cats it mt)) index
           = Return sample ->
           basename (fst sample) = basename (snd sample))
    /\ Imp1k.image_map_pair_cache (Imp1k.init w root cats it mt)
       = flat_map
           (fun category =>
              filter same_basename
                (imp1k_positional_pairs w (new_downloader w root Imp1k.URL)
                   category))
           (or_default cats Imp1k.Imp1kCategories.all)
    /\ Salicon.image_map_pair_cache (Salicon.init w root cats it mt)
       = flat_map
           (salicon_category_pairs w
              (new_gdrive_downloader w (root ++ "/salicon")%string
                 Salicon.IMAGE_ID "images.zip")
              (new_gdrive_downloader w (root ++ "/salicon")%string
                 Salicon.MAPS_ID "maps.zip"))
           (or_default cats ["test"; "train"]).
Proof.
  intros Img w root cats it mt.
  assert (Hall :
    Forall (fun sample => basename (fst sample) = basename (snd sample))
      (Imp1k.image_map_pair_cache (Imp1k.init w root cats it mt))).
  { rewrite imp1k_init_cache.
    apply Forall_forall. intros sample Hin.
    apply in_flat_map in Hin. destruct Hin as (category & _ & Hin).
    unfold imp1k_category_pairs in Hin.
    apply filter_In in Hin. destruct Hin as [_ Hsame].
    now apply String.eqb_eq in Hsame. }
  split; [exact Hall|]. split; [|split].
  - intros index sample Hget. apply getitem_In in Hget.
    rewrite Forall_forall in Hall. now apply Hall.
  - apply imp1k_init_cache.
  - apply salicon_init_cache.
Qed.

(** C1, as stated, fails on SALICON: the built catalog of a tree holding
    [a.jpg] and its map [a.png] returns, at index 0, a sample whose base
    filenames differ. *)
Lemma C1_salicon_sample_basenames_differ :
  exists sample,
    Py.getitem
      (Salicon.image_map_pair_cache
         (Salicon.init salicon_world "/data" None None None)) 0
    = Return sample
    /\ basename (fst sample) <> basename (snd sample).
Proof.
  exists ("/data/salicon/train/images/a.jpg"%string,
          "/data/salicon/train/maps/a.png"%string).
  split; [reflexivity|]. vm_compute. discriminate.
Qed.

(** C8 (amended).  Each listing is sorted on its own into ascending
    lexicographic order.  Per category the pairs considered are the
    positional zip of the two sorted listings, as many as the shorter
    listing has files;
    the catalog keeps those with equal base filenames, hence at most
    [min(count_images, count_maps)] of them, category after category.  In
    the scenario the maps sort to [X.jpg, a.jpg, c.jpg] (upper case sorts
    first), so the catalog holds the single pair [(c.jpg, c.jpg)]. *)
Theorem C8_positional_zip_after_sorts :
  forall (Img : Type) (w : World Img),
    (forall listing,
        Permutation listing (sorted listing)
        /\ LocallySorted (fun a b => String.leb a b = true) (sorted listing))
    /\ (forall d category,
        List.length (imp1k_positional_pairs w d category)
        = Nat.min (List.length (imp1k_images w d category))
                  (List.length (imp1k_maps w d category))
        /\ (List.length (imp1k_category_pairs w d category)
            <= Nat.min (List.length (imp1k_images w d category))
                       (List.length (imp1k_maps w d category)))%nat)
    /\ (forall root cats it mt,
           Imp1k.image_map_pair_cache (Imp1k.init w root cats it mt)
           = flat_map
               (imp1k_category_pairs w (new_downloader w root Imp1k.URL))
               (or_default cats Imp1k.Imp1kCategories.all))
    /\ sorted (imp1k_maps scenario_world {| extract_path := "/data" |} "ads")
       = ["/data/maps/ads/X.jpg"; "/data/maps/ads/a.jpg";
          "/data/maps/ads/c.jpg"]%string
    /\ map (fun sample => (basename (fst sample), basename (snd sample)))
         (Imp1k.image_map_pair_cache
            (Imp1k.init scenario_world "/data" (Some ["ads"%string]) None None))
       = [("c.jpg", "c.jpg")]%string.
Proof.
  intros Img w. split; [|split; [|split; [|split]]].
  - intros listing. split; [apply sorted_perm | apply sorted_ascending].
  - intros d category.
    assert (Hlen : List.length (imp1k_positional_pairs w d category)
                   = Nat.min (List.length (imp1k_images w d category))
                             (List.length (imp1k_maps w d category))).
    { unfold imp1k_positional_pairs, zip.
      now rewrite length_combine, !sorted_length. }
    split; [exact Hlen|].
    rewrite <- Hlen. unfold imp1k_category_pairs. apply filter_length_le.
  - intros root cats it mt. apply imp1k_init_cache.
  - reflexivity.
  - reflexivity.
Qed.

(** C8, as stated, fails in its scenario: the catalog built from images
    [a.jpg, b.jpg, c.jpg] and maps [a.jpg, X.jpg, c.jpg] is not
    [(a.jpg, a.jpg), (c.jpg, c.jpg)], and its length is 1, not 2. *)
Lemma C8_scenario_catalog_is_not_two_pairs :
  map (fun sample => (basename (fst sample), basename (snd sample)))
    (Imp1k.image_map_pair_cache
       (Imp1k.init scenario_world "/data" (Some ["ads"%string]) None None))
  <> [("a.jpg", "a.jpg"); ("c.jpg", "c.jpg")]%string
  /\ Imp1k.length
       (Imp1k.init scenario_world "/data" (Some ["ads"%string]) None None)
     <> 2.
Proof.
  split; vm_compute; discriminate.
Qed.

(** A second build of any constructed Imp1k dataset appends the whole
    catalog once more. *)
Lemma imp1k_second_build_doubles {Img : Type} (w : World Img)
    (root : string) (cats : option (list string)) (it mt : transform Img) :
  Imp1k.image_map_pair_cache
    (Imp1k.cache_image_map_paths w (Imp1k.init w root cats it mt))
  = Imp1k.image_map_pair_cache (Imp1k.init w root cats it mt)
    ++ Imp1k.image_map_pair_cache (Imp1k.init w root cats it mt).
Proof.
  rewrite imp1k_rebuild_appends by apply imp1k_init_flag.
  f_equal. rewrite imp1k_init_cache.
  unfold Imp1k.init, Imp1k.cache_image_map_paths; simpl.
  match goal with
  | |- context [fold_left (Imp1k.category_step w) ?c ?s] =>
      destruct (imp1k_category_loop w c s) as (_ & -> & -> & _)
  end.
  reflexivity.
Qed.

(** So does a second build of any constructed SALICON dataset, which has no
    guard at all. *)
Lemma salicon_second_build_doubles {Img : Type} (w : World Img)
    (root : string) (cats : option (list string)) (it mt : transform Img) :
  Salicon.image_map_pair_cache
    (Salicon.cache_image_map_paths w (Salicon.init w root cats it mt))
  = Salicon.image_map_pair_cache (Salicon.init w root cats it mt)
    ++ Salicon.image_map_pair_cache (Salicon.init w root cats it mt).
Proof.
  unfold Salicon.cache_image_map_paths at 1.
  destruct (salicon_category_loop w
              (Salicon.categories (Salicon.init w root cats it mt))
              (Salicon.init w root cats it mt)) as (-> & _).
  f_equal. rewrite salicon_init_cache.
  unfold Salicon.init, Salicon.cache_image_map_paths; simpl.
  match goal with
  | |- context [fold_left (Salicon.category_step w) ?c ?s] =>
      destruct (salicon_category_loop w c s) as (_ & -> & -> & ->)
  end.
  reflexivity.
Qed.

(** C2 (the code departs from the claim).  The Imp1k dataset built over the
    scenario tree holds one pair; calling [cache_image_map_paths] again
    appends it a second time, and the SALICON dataset behaves alike. *)
Theorem C2_second_build_appends_again :
  let imp := Imp1k.init scenario_world "/data" (Some ["ads"%string]) None None in
  let sal := Salicon.init salicon_world "/data" None None None in
  Imp1k.cache_image_map_paths_cashed imp = false
  /\ Imp1k.length imp = 1
  /\ Imp1k.length (Imp1k.cache_image_map_paths scenario_world imp) = 2
  /\ Imp1k.image_map_pair_cache (Imp1k.cache_image_map_paths scenario_world imp)
     = Imp1k.image_map_pair_cache imp ++ Imp1k.image_map_pair_cache imp
  /\ Salicon.length sal = 1
  /\ Salicon.length (Salicon.cache_image_map_paths salicon_world sal) = 2.
Proof.
  cbv zeta. repeat split; reflexivity.
Qed.

(* ================================================================== *)
(** * Properties: item access *)
(* ================================================================== *)

Section ItemAccessFacts.
Context {A : Type}.

Lemma nth_error_in_range (l : list A) (i : Z) :
  0 <= i < len l -> exists x, nth_error l (Z.to_nat i) = Some x.
Proof.
  unfold len. intros Hi.
  destruct (nth_error l (Z.to_nat i)) as [x|] eqn:Hnth; [now exists x|].
  apply nth_error_None in Hnth. lia.
Qed.

(** A non-negative index below the length reads that position. *)
Lemma getitem_in_range (l : list A) (i : Z) :
  0 <= i < len l ->
  exists x, nth_error l (Z.to_nat i) = Some x /\ Py.getitem l i = Return x.
Proof.
  intros Hi. destruct (nth_error_in_range l i Hi) as [x Hx].
  exists x. split; [exact Hx|].
  assert (Hneg : (i <? 0) = false) by (apply Z.ltb_ge; lia).
  assert (Hhigh : (len l <=? i) = false) by (apply Z.leb_gt; lia).
  unfold Py.getitem; cbv zeta.
  rewrite Hneg; cbn iota. now rewrite Hneg, Hhigh, Hx.
Qed.

(** A negative index no smaller than [-len] reads from the end. *)
Lemma getitem_negative (l : list A) (i : Z) :
  - len l <= i < 0 -> Py.getitem l i = Py.getitem l (len l + i).
Proof.
  intros Hi.
  assert (Hneg : (i <? 0) = true) by (apply Z.ltb_lt; lia).
  assert (Hpos : (len l + i <? 0) = false) by (apply Z.ltb_ge; lia).
  unfold Py.getitem; cbv zeta.
  rewrite Hneg, Hpos; cbn iota.
  now rewrite (Z.add_comm i (len l)).
Qed.

(** List access raises exactly outside [-len .. len-1], and then it is
    [IndexError]. *)
Lemma getitem_raises (l : list A) (i : Z) (e : exception) :
  Py.getitem l i = Raise e <-> e = IndexError /\ (len l <= i \/ i < - len l).
Proof.
  split.
  - intros Hraise.
    destruct (Z_lt_ge_dec i (- len l)) as [Hlow|Hlow].
    + split; [|now right].
      revert Hraise. unfold Py.getitem; cbv zeta.
      destruct (_ || _); [congruence|].
      destruct (nth_error l _); congruence.
    + destruct (Z_lt_ge_dec i (len l)) as [Hhigh|Hhigh].
      * exfalso.
        destruct (Z_lt_ge_dec i 0) as [Hneg|Hpos].
        -- rewrite getitem_negative in Hraise by lia.
           destruct (getitem_in_range l (len l + i)) as (x & _ & Hx);
             [lia | congruence].
        -- destruct (getitem_in_range l i) as (x & _ & Hx);
             [lia | congruence].
      * split; [|left; lia].
        revert Hraise. unfold Py.getitem; cbv zeta.
        destruct (_ || _); [congruence|].
        destruct (nth_error l _); congruence.
  - intros [-> Hout]. unfold Py.getitem; cbv zeta.
    destruct (i <? 0) eqn:Hneg.
    + apply Z.ltb_lt in Hneg.
      assert (Hlow : (i + len l <? 0) = true) by (apply Z.ltb_lt; lia).
      now rewrite Hlow.
    + apply Z.ltb_ge in Hneg.
      assert (Hhigh : (len l <=? i) = true) by (apply Z.leb_le; lia).
      rewrite Hhigh. now rewrite orb_true_r.
Qed.

End ItemAccessFacts.

(** Opening the two files and transforming them never raises [IndexError]. *)
Lemma imp1k_load_no_index_error {Img : Type} (w : World Img)
    (self : Imp1k.Imp1kDataset Img) (pair : string * string) :
  Imp1k.load w self pair <> Raise IndexError.
Proof.
  destruct pair as [image_path map_path].
  unfold Imp1k.load, open_image.
  destruct (image_open w image_path); simpl; [|discriminate].
  destruct (image_open w map_path); simpl; discriminate.
Qed.

Lemma salicon_load_no_index_error {Img : Type} (w : World Img)
    (self : Salicon.SALICONDataset Img) (pair : string * string) :
  Salicon.load w self pair <> Raise IndexError.
Proof.
  destruct pair as [image_path map_path].
  unfold Salicon.load, open_image.
  destruct (image_open w image_path); simpl; [|discriminate].
  destruct (image_open w map_path); simpl; [|discriminate].
  destruct (Salicon.image_transform self); discriminate.
Qed.

(** C9.  In both dataset variants an index [-n <= index < 0] on a catalog
    of length [n] reads the pair at position [n + index] and loads it, as
    the access at [n + index] does; the access raises [IndexError] exactly
    when [index >= n] or [index < -n]. *)
Theorem C9_negative_index_counts_from_end :
  forall (Img : Type) (w : World Img)
         (imp : Imp1k.Imp1kDataset Img) (sal : Salicon.SALICONDataset Img),
    (forall index,
        - Imp1k.length imp <= index < 0 ->
        exists pair,
          nth_error (Imp1k.image_map_pair_cache imp)
            (Z.to_nat (Imp1k.length imp + index)) = Some pair
          /\ Imp1k.getitem w imp index = Imp1k.load w imp pair
          /\ Imp1k.getitem w imp index
             = Imp1k.getitem w imp (Imp1k.length imp + index))
    /\ (forall index,
           Imp1k.getitem w imp index = Raise IndexError
           <-> (Imp1k.length imp <= index \/ index < - Imp1k.length imp))
    /\ (forall index,
           - Salicon.length sal <= index < 0 ->
           exists pair,
             nth_error (Salicon.image_map_pair_cache sal)
               (Z.to_nat (Salicon.length sal + index)) = Some pair
             /\ Salicon.getitem w sal index = Salicon.load w sal pair
             /\ Salicon.getitem w sal index
                = Salicon.getitem w sal (Salicon.length sal + index))
    /\ (forall index,
           Salicon.getitem w sal index = Raise IndexError
           <-> (Salicon.length sal <= index \/ index < - Salicon.length sal)).
Proof.
  intros Img w imp sal.
  split; [|split; [|split]].
  - intros index Hidx. unfold Imp1k.getitem, Imp1k.length in *.
    rewrite (getitem_negative _ index Hidx).
    destruct (getitem_in_range (Imp1k.image_map_pair_cache imp)
                (len (Imp1k.image_map_pair_cache imp) + index))
      as (pair & Hnth & Hget); [lia|].
    exists pair. rewrite Hget. auto.
  - intros index. unfold Imp1k.getitem, Imp1k.length.
    split.
    + destruct (Py.getitem (Imp1k.image_map_pair_cache imp) index)
        as [pair|e] eqn:Hget; simpl.
      * intros Hload. now apply imp1k_load_no_index_error in Hload.
      * intros _. now apply getitem_raises in Hget.
    + intros Hout.
      assert (Hget : Py.getitem (Imp1k.image_map_pair_cache imp) index
                     = Raise IndexError) by (apply getitem_raises; auto).
      now rewrite Hget.
  - intros index Hidx. unfold Salicon.getitem, Salicon.length in *.
    rewrite (getitem_negative _ index Hidx).
    destruct (getitem_in_range (Salicon.image_map_pair_cache sal)
                (len (Salicon.image_map_pair_cache sal) + index))
      as (pair & Hnth & Hget); [lia|].
    exists pair. rewrite Hget. auto.
  - intros index. unfold Salicon.getitem, Salicon.length.
    split.
    + destruct (Py.getitem (Salicon.image_map_pair_cache sal) index)
        as [pair|e] eqn:Hget; simpl.
      * intros Hload. now apply salicon_load_no_index_error in Hload.
      * intros _. now apply getitem_raises in Hget.
    + intros Hout.
      assert (Hget : Py.getitem (Salicon.image_map_pair_cache sal) index
                     = Raise IndexError) by (apply getitem_raises; auto).
      now rewrite Hget.
Qed.

(** C9 at work: on the scenario catalog (length 1) index [-1] loads the
    pair at position 0, and on the SALICON catalog too. *)
Lemma C9_negative_index_witness :
  Imp1k.getitem scenario_world
    (Imp1k.init scenario_world "/data" (Some ["ads"%string]) None None) (-1)
  = Imp1k.load scenario_world
      (Imp1k.init scenario_world "/data" (Some ["ads"%string]) None None)
      ("/data/imgs/ads/c.jpg", "/data/maps/ads/c.jpg")%string.
Proof.
  destruct (C9_negative_index_counts_from_end Z scenario_world
              (Imp1k.init scenario_world "/data" (Some ["ads"%string]) None None)
              (Salicon.init salicon_world "/data" None None None))
    as (Hneg & _).
  destruct (Hneg (-1)) as (pair & Hnth & Hload & _).
  - vm_compute. split; [discriminate | reflexivity].
  - injection Hnth as <-. exact Hload.
Defined.

(** C4 (amended).  Imp1k resolves the target transform as [map_transform],
    else [image_transform], else none.  SALICON does so only when an
    [image_transform] is configured; without one the target is returned
    as converted, whether or not a [map_transform] is configured. *)
Theorem C4_target_transform_resolution :
  forall (Img : Type) (w : World Img),
    (forall (self : Imp1k.Imp1kDataset Img) (index : Z),
        Imp1k.getitem w self index
        = (pair <- Py.getitem (Imp1k.image_map_pair_cache self) index ;;
           image <- open_image w (fst pair) ;;
           map_image <- open_image w (snd pair) ;;
           Return (input_transformed (Imp1k.image_transform self) image,
                   resolve_target (Imp1k.map_transform self)
                     (Imp1k.image_transform self) map_image)))
    /\ (forall (self : Salicon.SALICONDataset Img) (index : Z),
           Salicon.getitem w self index
           = (pair <- Py.getitem (Salicon.image_map_pair_cache self) index ;;
              image <- open_image w (fst pair) ;;
              map_image <- open_image w (snd pair) ;;
              Return (input_transformed (Salicon.image_transform self)
                        (convert w "RGB" image),
                      match Salicon.image_transform self with
                      | Some _ =>
                          resolve_target (Salicon.map_transform self)
                            (Salicon.image_transform self)
                            (convert w "L" map_image)
                      | None => convert w "L" map_image
                      end))).
Proof.
  intros Img w. split.
  - intros self index. unfold Imp1k.getitem.
    destruct (Py.getitem (Imp1k.image_map_pair_cache self) index)
      as [[image_path map_path]|e]; simpl; [|reflexivity].
    destruct (open_image w image_path); simpl; [|reflexivity].
    destruct (open_image w map_path); simpl; [|reflexivity].
    unfold input_transformed, resolve_target.
    destruct (Imp1k.map_transform self), (Imp1k.image_transform self);
      reflexivity.
  - intros self index. unfold Salicon.getitem.
    destruct (Py.getitem (Salicon.image_map_pair_cache self) index)
      as [[image_path map_path]|e]; simpl; [|reflexivity].
    destruct (open_image w image_path); simpl; [|reflexivity].
    destruct (open_image w map_path); simpl; [|reflexivity].
    unfold input_transformed, resolve_target.
    destruct (Salicon.map_transform self), (Salicon.image_transform self);
      reflexivity.
Qed.

(** C4, as stated, fails on SALICON: with a [map_transform] configured and
    no [image_transform], the target comes back unchanged ([10]), not
    transformed ([11]). *)
Lemma C4_salicon_skips_map_transform :
  let self :=
    Salicon.init salicon_world "/data" None None (Some (fun t => t + 1)) in
  exists m,
    Salicon.map_transform self = Some m
    /\ Salicon.image_transform self = None
    /\ Salicon.getitem salicon_world self 0 = Return (10, 10)
    /\ m 10 <> 10.
Proof.
  cbv zeta. exists (fun t => t + 1).
  repeat split; simpl; lia.
Qed.

(* ================================================================== *)
(** * Properties: the epoch runners of train.py *)
(* ================================================================== *)

Section RunnerFacts.
Context (T : Torch).

(** The loss of a batch depends on the session through its parameters and
    its mode only. *)
Lemma batch_loss_ext (s s' : Train.Session T) (b : Train.batch T) :
  Train.params s' = Train.params s ->
  Train.training s' = Train.training s ->
  batch_loss T s' b = batch_loss T s b.
Proof.
  intros Hp Hm. unfold batch_loss. now rewrite Hp, Hm.
Qed.

(** One round of the evaluation loop: a forward call is recorded, the loss
    is added, and nothing else moves. *)
Lemma eval_batch_effect (s : Train.Session T) (acc : Q) (b : Train.batch T) :
  Train.eval_batch T (s, acc) b
  = (Train.Build_Session T (Train.params s) (Train.grads s)
       (Train.opt_state s) (Train.training s)
       (Train.calls s ++ [CallForward]),
     (acc + batch_loss T s b)%Q).
Proof.
  destruct b as [image ground_truth]. reflexivity.
Qed.

Lemma eval_loop_state (dataloader : list (Train.batch T))
    (s : Train.Session T) (acc : Q) :
  fst (fold_left (Train.eval_batch T) dataloader (s, acc))
  = Train.Build_Session T (Train.params s) (Train.grads s)
      (Train.opt_state s) (Train.training s)
      (Train.calls s ++ repeat CallForward (List.length dataloader)).
Proof.
  revert s acc.
  induction dataloader as [|b rest IH]; intros s acc; cbn [fold_left].
  - destruct s; simpl. now rewrite app_nil_r.
  - rewrite eval_batch_effect, IH; simpl.
    now rewrite <- app_assoc.
Qed.

(** The accumulated loss of the evaluation loop is a function of the
    parameters and the mode: the same floats are added in the same order. *)
Lemma eval_loop_loss_ext (dataloader : list (Train.batch T))
    (s s' : Train.Session T) (acc : Q) :
  Train.params s' = Train.params s ->
  Train.training s' = Train.training s ->
  snd (fold_left (Train.eval_batch T) dataloader (s', acc))
  = snd (fold_left (Train.eval_batch T) dataloader (s, acc)).
Proof.
  revert s s' acc.
  induction dataloader as [|b rest IH]; intros s s' acc Hp Hm;
    cbn [fold_left]; [reflexivity|].
  rewrite !eval_batch_effect, (batch_loss_ext s s' b Hp Hm).
  now apply IH.
Qed.

Lemma eval_loop_loss (dataloader : list (Train.batch T))
    (s : Train.Session T) (acc : Q) :
  (snd (fold_left (Train.eval_batch T) dataloader (s, acc))
   == acc + sum_losses (eval_losses T s dataloader))%Q.
Proof.
  revert s acc.
  induction dataloader as [|b rest IH]; intros s acc; cbn [fold_left].
  - simpl. ring.
  - rewrite eval_batch_effect, IH.
    unfold eval_losses; cbn [map sum_losses].
    rewrite (map_ext (batch_loss T _) (batch_loss T s))
      by (intros b'; now apply batch_loss_ext).
    ring.
Qed.

(** One round of the training loop adds the loss of the batch under the
    parameters it started with; the session it leaves does not depend on
    the running sum. *)
Lemma train_batch_effect (s : Train.Session T) (acc : Q) (b : Train.batch T) :
  Train.train_batch T (s, acc) b
  = (fst (Train.train_batch T (s, 0%Q) b), (acc + batch_loss T s b)%Q).
Proof.
  destruct b as [image ground_truth].
  unfold Train.train_batch, Train.optimizer_step_call, batch_loss; simpl.
  now destruct (optimizer_step T _ _ _).
Qed.

Lemma train_loop_loss (dataloader : list (Train.batch T))
    (s : Train.Session T) (acc : Q) :
  (snd (fold_left (Train.train_batch T) dataloader (s, acc))
   == acc + sum_losses (train_losses T s dataloader))%Q.
Proof.
  revert s acc.
  induction dataloader as [|b rest IH]; intros s acc;
    cbn [fold_left train_losses sum_losses snd].
  - ring.
  - rewrite train_batch_effect, IH. ring.
Qed.

Lemma train_losses_length (dataloader : list (Train.batch T))
    (s : Train.Session T) :
  List.length (train_losses T s dataloader) = List.length dataloader.
Proof.
  revert s. induction dataloader as [|b rest IH]; intros s; simpl;
    [reflexivity | now rewrite IH].
Qed.

(** Dividing by a batch count that is not zero returns the quotient. *)
Lemma truediv_nonempty {A : Type} (l : list A) (a : Q) :
  l <> [] -> truediv a (len l) = Return (a / inject_Z (len l))%Q.
Proof.
  intros Hne. unfold truediv, len.
  destruct l as [|x l]; [congruence|]. reflexivity.
Qed.

End RunnerFacts.

(** C5 (amended).  Over an empty batch sequence each of [train],
    [validation] and [test] ends in the error Python raises for the
    division by [len(dataloader)], [ZeroDivisionError] (the runners make no
    check of their own); none of them returns a loss, be it zero or NaN. *)
Theorem C5_empty_epoch_raises :
  forall (T : Torch) (s : Train.Session T),
    snd (Train.train T s []) = Raise ZeroDivisionError
    /\ snd (Train.validation T s []) = Raise ZeroDivisionError
    /\ snd (Train.test T s []) = Raise ZeroDivisionError
    /\ (forall metrics,
           snd (Train.train T s []) <> Return metrics
           /\ snd (Train.validation T s []) <> Return metrics
           /\ snd (Train.test T s []) <> Return metrics).
Proof.
  intros T s. repeat split; try reflexivity; discriminate.
Qed.

(** C5, as stated, fails: over no batches [train] ends in the
    [ZeroDivisionError] Python raises for the division itself, not in a
    ZeroBatches error of the runner's own; [validation] and [test]
    likewise. *)
Lemma C5_no_zero_batches_error :
  fault_of (snd (Train.train toy_torch toy_session []))
  = Some (PythonException ZeroDivisionError)
  /\ fault_of (snd (Train.train toy_torch toy_session [])) <> Some ZeroBatches
  /\ fault_of (snd (Train.validation toy_torch toy_session []))
     <> Some ZeroBatches
  /\ fault_of (snd (Train.test toy_torch toy_session [])) <> Some ZeroBatches.
Proof.
  repeat split; discriminate.
Qed.

(** C6.  A validation or test run leaves the parameters, the gradients and
    the optimizer state as they were; the calls it makes are [model.eval()]
    and one forward call per batch, never a backward pass nor an optimizer
    step; hence a second validation right after the first returns the same
    result.  [validation_step] of the Lightning module likewise makes one
    forward call and keeps the parameters. *)
Theorem C6_evaluation_keeps_parameters :
  forall (T : Torch) (s : Train.Session T) (dataloader : list (Train.batch T)),
    let after_validation := fst (Train.validation T s dataloader) in
    let after_test := fst (Train.test T s dataloader) in
    let made := CallEval :: repeat CallForward (List.length dataloader) in
    (Train.params after_validation = Train.params s
     /\ Train.grads after_validation = Train.grads s
     /\ Train.opt_state after_validation = Train.opt_state s
     /\ Train.calls after_validation = Train.calls s ++ made)
    /\ (Train.params after_test = Train.params s
        /\ Train.grads after_test = Train.grads s
        /\ Train.opt_state after_test = Train.opt_state s
        /\ Train.calls after_test = Train.calls s ++ made)
    /\ (~ In CallBackward made /\ ~ In CallStep made)
    /\ snd (Train.validation T after_validation dataloader)
       = snd (Train.validation T s dataloader)
    /\ snd (Train.test T after_test dataloader)
       = snd (Train.test T s dataloader)
    /\ (forall (self : Saliency.SaliencyModel T) (b : Saliency.batch T)
               (batch_idx : Z),
           let self' := fst (Saliency.validation_step T self b batch_idx) in
           Train.params (Saliency.net self')
           = Train.params (Saliency.net self)
           /\ Train.grads (Saliency.net self')
              = Train.grads (Saliency.net self)
           /\ Train.opt_state (Saliency.net self')
              = Train.opt_state (Saliency.net self)
           /\ Train.calls (Saliency.net self')
              = Train.calls (Saliency.net self) ++ [CallForward]).
Proof.
  intros T s dataloader. cbv zeta.
  assert (Hstate :
    fst (Train.validation T s dataloader)
    = Train.Build_Session T (Train.params s) (Train.grads s)
        (Train.opt_state s) false
        (Train.calls s
         ++ CallEval :: repeat CallForward (List.length dataloader))).
  { unfold Train.validation.
    destruct (fold_left (Train.eval_batch T) dataloader
                (Train.model_eval T s, 0%Q)) as [s' epoch_loss] eqn:Hloop.
    change s' with (fst (s', epoch_loss)). rewrite <- Hloop.
    rewrite eval_loop_state; simpl. now rewrite <- app_assoc. }
  assert (Hmade : forall c, c <> CallEval -> c <> CallForward ->
            ~ In c (CallEval :: repeat CallForward (List.length dataloader))).
  { intros c Hc1 Hc2 [Hin|Hin]; [congruence|].
    apply repeat_spec in Hin. congruence. }
  assert (Hagain :
    snd (Train.validation T (fst (Train.validation T s dataloader)) dataloader)
    = snd (Train.validation T s dataloader)).
  { rewrite Hstate. unfold Train.validation.
    match goal with
    | |- snd (let '(_, _) := fold_left _ _ (?s1, _) in _)
         = snd (let '(_, _) := fold_left _ _ (?s2, _) in _) =>
        pose proof (eval_loop_loss_ext T dataloader s2 s1 0%Q
                      eq_refl eq_refl) as Hloss;
        destruct (fold_left (Train.eval_batch T) dataloader (s1, 0%Q));
        destruct (fold_left (Train.eval_batch T) dataloader (s2, 0%Q))
    end.
    simpl in *. now rewrite Hloss. }
  split; [|split; [|split; [|split; [|split]]]].
  - rewrite Hstate. auto.
  - change (Train.test T s dataloader) with (Train.validation T s dataloader).
    rewrite Hstate. auto.
  - split; apply Hmade; discriminate.
  - exact Hagain.
  - exact Hagain.
  - intros self [image ground_truth] batch_idx. cbv zeta. simpl. auto.
Qed.

(** C7.  Over a non-empty batch sequence each runner returns
    [{"loss": v}] with [v] equal to [sum(Li) / N], where [L1..LN] are the
    losses of the batches in order (for [train], each under the parameters
    left by the updates before it) and [N] is their number. *)
Theorem C7_mean_loss_is_sum_over_count :
  forall (T : Torch) (s : Train.Session T) (dataloader : list (Train.batch T)),
    dataloader <> [] ->
    (exists v,
        snd (Train.train T s dataloader) = Return [("loss"%string, v)]
        /\ (v == mean_loss (train_losses T (Train.model_train T s) dataloader))%Q
        /\ len (train_losses T (Train.model_train T s) dataloader)
           = len dataloader)
    /\ (exists v,
           snd (Train.validation T s dataloader) = Return [("loss"%string, v)]
           /\ (v == mean_loss
                      (eval_losses T (Train.model_eval T s) dataloader))%Q
           /\ len (eval_losses T (Train.model_eval T s) dataloader)
              = len dataloader)
    /\ (exists v,
           snd (Train.test T s dataloader) = Return [("loss"%string, v)]
           /\ (v == mean_loss
                      (eval_losses T (Train.model_eval T s) dataloader))%Q
           /\ len (eval_losses T (Train.model_eval T s) dataloader)
              = len dataloader).
Proof.
  intros T s dataloader Hne.
  assert (Heval :
    exists v,
      snd (Train.validation T s dataloader) = Return [("loss"%string, v)]
      /\ (v == mean_loss (eval_losses T (Train.model_eval T s) dataloader))%Q
      /\ len (eval_losses T (Train.model_eval T s) dataloader)
         = len dataloader).
  { assert (Hlen : len (eval_losses T (Train.model_eval T s) dataloader)
                   = len dataloader)
      by (unfold len, eval_losses; now rewrite length_map).
    pose proof (eval_loop_loss T dataloader (Train.model_eval T s) 0%Q)
      as Hsum.
    unfold Train.validation.
    destruct (fold_left (Train.eval_batch T) dataloader
                (Train.model_eval T s, 0%Q)) as [s' epoch_loss].
    rewrite (truediv_nonempty dataloader epoch_loss Hne). simpl in *.
    eexists. split; [reflexivity|]. split; [|exact Hlen].
    unfold mean_loss. rewrite Hlen, Hsum. now rewrite Qplus_0_l. }
  split; [|split; exact Heval].
  assert (Hlen : len (train_losses T (Train.model_train T s) dataloader)
                 = len dataloader)
    by (unfold len; now rewrite train_losses_length).
  pose proof (train_loop_loss T dataloader (Train.model_train T s) 0%Q)
    as Hsum.
  unfold Train.train.
  destruct (fold_left (Train.train_batch T) dataloader
              (Train.model_train T s, 0%Q)) as [s' epoch_loss].
  rewrite (truediv_nonempty dataloader epoch_loss Hne). simpl in *.
  eexists. split; [reflexivity|]. split; [|exact Hlen].
  unfold mean_loss. rewrite Hlen, Hsum. now rewrite Qplus_0_l.
Qed.

(** C7 at work: three batches of the linear model, trained from
    parameter [1]; the losses are 1, 16 and 1764. *)
Lemma C7_mean_loss_witness :
  exists v,
    snd (Train.train toy_torch toy_session [(1, 2); (2, 2); (3, 3)])
    = Return [("loss"%string, v)]
    /\ (v == mean_loss
              (train_losses toy_torch (Train.model_train toy_torch toy_session)
                 [(1, 2); (2, 2); (3, 3)]%Z))%Q.
Proof.
  destruct (C7_mean_loss_is_sum_over_count toy_torch toy_session
              [(1, 2); (2, 2); (3, 3)]) as ((v & Hret & Hmean & _) & _).
  - discriminate.
  - exists v. split; [exact Hret | exact Hmean].
Defined.

(* ================================================================== *)
(** * Properties: the snapshot hooks of SaliencyModel *)
(* ================================================================== *)

Section SnapshotFacts.
Context (T : Torch).

(** The buffer of [save_image] has 2800 rows, which [add_image] takes for
    2800 channels. *)
Lemma add_image_rejects (board : list (string * Saliency.Figure T * Z))
    (tag : string) (data : Saliency.Figure T) (step : Z) :
  Saliency.add_image T board tag Saliency.image_data_shape data step = None.
Proof. reflexivity. Qed.

(** The loop over the loggers changes nothing, and raises [TypeError] as
    soon as it meets a TensorBoard logger. *)
Lemma hand_to_loggers_effect (remaining : list Saliency.logger)
    (self : Saliency.SaliencyModel T) (tag : string)
    (fig : Saliency.Figure T) (epoch : Z) :
  Saliency.hand_to_loggers T self remaining tag fig epoch
  = (self,
     if existsb Saliency.is_tensorboard remaining
     then Saliency.Raised Saliency.TypeError
     else Saliency.Returned).
Proof.
  induction remaining as [|logger rest IH]; [reflexivity|].
  cbn [Saliency.hand_to_loggers existsb].
  destruct (Saliency.is_tensorboard logger); cbn [orb].
  - now rewrite add_image_rejects.
  - exact IH.
Qed.

(** [save_image] draws one figure, and raises exactly when a TensorBoard
    logger is registered. *)
Lemma save_image_effect (self : Saliency.SaliencyModel T) (stage : string)
    (epoch : Z) (images ground_truths predicts : Tensor T) :
  Saliency.save_image T self stage epoch images ground_truths predicts
  = (Saliency.draw T self
       (Saliency.Build_Figure T
          (stage ++ " epoch: " ++ str_of_int epoch)%string
          (sample0 T (normalized T images))
          (sample0 T (normalized T ground_truths))
          (sample0 T (normalized T predicts))),
     if existsb Saliency.is_tensorboard (Saliency.loggers self)
     then Saliency.Raised Saliency.TypeError
     else Saliency.Returned).
Proof.
  unfold Saliency.save_image. now rewrite hand_to_loggers_effect.
Qed.

Lemma map_snd_combine {A B : Type} (l : list A) (l' : list B) :
  List.length l = List.length l' -> map snd (combine l l') = l'.
Proof.
  revert l'. induction l as [|x l IH]; intros [|y l'] Hlen; simpl in *;
    try discriminate; [reflexivity|].
  f_equal. apply IH. now injection Hlen.
Qed.

Lemma combine_app_same_length {A B : Type} (l1 l2 : list A)
    (l1' l2' : list B) :
  List.length l1 = List.length l1' ->
  combine (l1 ++ l2) (l1' ++ l2') = combine l1 l1' ++ combine l2 l2'.
Proof.
  revert l1'. induction l1 as [|x l1 IH]; intros [|y l1'] Hlen;
    simpl in *; try discriminate; [reflexivity|].
  f_equal. apply IH. now injection Hlen.
Qed.

(** [enumerate] hands out the indices [0 .. n-1], in order, each with its
    batch. *)
Lemma enumerate_batches {A : Type} (l : list A) :
  map snd (Saliency.enumerate l) = l.
Proof.
  unfold Saliency.enumerate. apply map_snd_combine.
  now rewrite length_map, length_seq.
Qed.

Lemma enumerate_bound {A : Type} (l : list A) (i : Z) (x : A) :
  In (i, x) (Saliency.enumerate l) -> 0 <= i < len l.
Proof.
  unfold Saliency.enumerate, len. intros Hin.
  apply in_combine_l in Hin. apply in_map_iff in Hin.
  destruct Hin as (k & <- & Hk). apply in_seq in Hk. lia.
Qed.

Lemma enumerate_snoc {A : Type} (l : list A) (x : A) :
  Saliency.enumerate (l ++ [x]) = Saliency.enumerate l ++ [(len l, x)].
Proof.
  unfold Saliency.enumerate, len.
  rewrite length_app; simpl. rewrite Nat.add_1_r, seq_S, map_app; simpl.
  rewrite combine_app_same_length; [reflexivity|].
  now rewrite length_map, length_seq.
Qed.

Lemma enumerate_cons {A : Type} (x : A) (l : list A) :
  Saliency.enumerate (x :: l)
  = (0, x) :: combine (map Z.of_nat (seq 1 (List.length l))) l.
Proof. reflexivity. Qed.

Lemma enumerate_tail_positive {A : Type} (l : list A) (i : Z) (x : A) :
  In (i, x) (combine (map Z.of_nat (seq 1 (List.length l))) l) -> 1 <= i.
Proof.
  intros Hin. apply in_combine_l in Hin. apply in_map_iff in Hin.
  destruct Hin as (k & <- & Hk). apply in_seq in Hk. lia.
Qed.

(** Rounds that return and draw nothing pass unnoticed: the loop goes on
    from where they leave the module, and no snapshot is listed for
    them. *)
Lemma quiet_rounds
    (body : Saliency.SaliencyModel T -> Z * Saliency.batch T
            -> Saliency.SaliencyModel T * Saliency.ending)
    (Inv : Saliency.SaliencyModel T -> Prop)
    (l : list (Z * Saliency.batch T)) :
  (forall s ib,
      In ib l -> Inv s ->
      Inv (fst (body s ib))
      /\ snd (body s ib) = Saliency.Returned
      /\ Saliency.figures (fst (body s ib)) = Saliency.figures s) ->
  forall (s : Saliency.SaliencyModel T) (rest : list (Z * Saliency.batch T)),
    Inv s ->
    exists s1,
      Inv s1
      /\ Saliency.figures s1 = Saliency.figures s
      /\ Saliency.for_each body (l ++ rest) s = Saliency.for_each body rest s1
      /\ Saliency.snapshot_batches T body (l ++ rest) s
         = Saliency.snapshot_batches T body rest s1.
Proof.
  induction l as [|ib l IH]; intros Hquiet s rest Hinv.
  - exists s. auto.
  - destruct (Hquiet s ib (or_introl eq_refl) Hinv) as (Hinv1 & Hend & Hfig).
    destruct (IH (fun s0 ib0 Hin => Hquiet s0 ib0 (or_intror Hin))
                (fst (body s ib)) rest Hinv1)
      as (s1 & Hinv' & Hfig' & Hloop & Hsnap).
    exists s1. split; [exact Hinv'|]. split; [congruence|].
    cbn [app Saliency.for_each Saliency.snapshot_batches].
    destruct (body s ib) as [s' e]. cbn [fst snd] in *. subst e.
    unfold Saliency.drew. rewrite Hfig, Nat.ltb_irrefl.
    split; [exact Hloop | exact Hsnap].
Qed.

(** A pass in which one round draws a figure, the rounds before it are
    quiet, and so are the rounds after it when it returns: the snapshot
    list is that round's index and the figures are one more, whether the
    round returns or raises. *)
Lemma pass_with_one_snapshot
    (body : Saliency.SaliencyModel T -> Z * Saliency.batch T
            -> Saliency.SaliencyModel T * Saliency.ending)
    (Inv : Saliency.SaliencyModel T -> Prop)
    (before after : list (Z * Saliency.batch T))
    (ib : Z * Saliency.batch T) (s : Saliency.SaliencyModel T) :
  (forall s0 ib0,
      In ib0 (before ++ after) -> Inv s0 ->
      Inv (fst (body s0 ib0))
      /\ snd (body s0 ib0) = Saliency.Returned
      /\ Saliency.figures (fst (body s0 ib0)) = Saliency.figures s0) ->
  (forall s0,
      Inv s0 ->
      Inv (fst (body s0 ib))
      /\ List.length (Saliency.figures (fst (body s0 ib)))
         = S (List.length (Saliency.figures s0))) ->
  Inv s ->
  Saliency.snapshot_batches T body (before ++ ib :: after) s = [fst ib]
  /\ List.length
       (Saliency.figures
          (fst (Saliency.for_each body (before ++ ib :: after) s)))
     = S (List.length (Saliency.figures s)).
Proof.
  intros Hquiet Hdraw Hinv.
  destruct (quiet_rounds body Inv before
              (fun s0 ib0 Hin => Hquiet s0 ib0 (in_or_app _ _ _ (or_introl Hin)))
              s (ib :: after) Hinv)
    as (s1 & Hinv1 & Hfig1 & -> & ->).
  destruct (Hdraw s1 Hinv1) as [Hinv2 Hfig2].
  cbn [Saliency.for_each Saliency.snapshot_batches].
  destruct (body s1 ib) as [s2 e]. cbn [fst] in *.
  assert (Hdrew : Saliency.drew T s1 s2 = true)
    by (unfold Saliency.drew; apply Nat.ltb_lt; lia).
  rewrite Hdrew.
  destruct e as [|r]; cbn [fst app].
  - destruct (quiet_rounds body Inv after
                (fun s0 ib0 Hin =>
                   Hquiet s0 ib0 (in_or_app _ _ _ (or_intror Hin)))
                s2 [] Hinv2)
      as (s3 & _ & Hfig3 & Hloop & Hsnap).
    rewrite app_nil_r in Hloop, Hsnap. rewrite Hloop, Hsnap.
    cbn [Saliency.for_each Saliency.snapshot_batches fst].
    split; [reflexivity | congruence].
  - split; [reflexivity | congruence].
Qed.

(** What a training round leaves, hook included: the network after one
    optimizer step on the gradients of the batch, and, on the index
    [num_training_batches - 1], one more figure. *)
Lemma training_round_state (self : Saliency.SaliencyModel T)
    (batch_idx : Z) (b : Saliency.batch T) :
  let p := Train.params (Saliency.net self) in
  let m := Train.training (Saliency.net self) in
  let stepped :=
    optimizer_step T (Train.opt_state (Saliency.net self))
      (backward T p m (fst b) (snd b) (zero_grads T)) p in
  let fires :=
    batch_idx =? Saliency.num_training_batches (Saliency.trainer self) - 1 in
  let fig :=
    Saliency.Build_Figure T
      ("training epoch: "
       ++ str_of_int (Saliency.current_epoch (Saliency.trainer self)))%string
      (sample0 T (normalized T (fst b)))
      (sample0 T (normalized T (snd b)))
      (sample0 T (normalized T (forward T (snd stepped) m (fst b)))) in
  let self' := fst (Saliency.training_batch T self (batch_idx, b)) in
  Train.params (Saliency.net self') = snd stepped
  /\ Train.opt_state (Saliency.net self') = fst stepped
  /\ Train.training (Saliency.net self') = m
  /\ Saliency.val_metrics self' = Saliency.val_metrics self
  /\ Saliency.test_metrics self' = Saliency.test_metrics self
  /\ Saliency.trainer self' = Saliency.trainer self
  /\ Saliency.loggers self' = Saliency.loggers self
  /\ Saliency.tensorboard self' = Saliency.tensorboard self
  /\ Saliency.figures self'
     = Saliency.figures self ++ (if fires then [fig] else [])
  /\ snd (Saliency.training_batch T self (batch_idx, b))
     = if fires && existsb Saliency.is_tensorboard (Saliency.loggers self)
       then Saliency.Raised Saliency.TypeError
       else Saliency.Returned.
Proof.
  destruct b as [image ground_truth]. cbv zeta.
  unfold Saliency.training_batch, Saliency.training_step,
    Saliency.on_train_batch_end, Saliency.forward_call,
    Train.optimizer_step_call; simpl.
  destruct (optimizer_step T _ _ _) as [o p]; simpl.
  destruct (batch_idx
            =? Saliency.num_training_batches (Saliency.trainer self) - 1);
    simpl.
  - rewrite save_image_effect; simpl. repeat split.
  - rewrite app_nil_r. repeat split.
Qed.

(** What a validation round leaves, hook included. *)
Lemma validation_round_state (self : Saliency.SaliencyModel T)
    (batch_idx : Z) (b : Saliency.batch T) :
  let p := Train.params (Saliency.net self) in
  let m := Train.training (Saliency.net self) in
  let fig :=
    Saliency.Build_Figure T
      ("validation epoch: "
       ++ str_of_int (Saliency.current_epoch (Saliency.trainer self)))%string
      (sample0 T (normalized T (fst b)))
      (sample0 T (normalized T (snd b)))
      (sample0 T (normalized T (forward T p m (fst b)))) in
  let self' := fst (Saliency.validation_batch T self (batch_idx, b)) in
  Train.params (Saliency.net self') = p
  /\ Train.grads (Saliency.net self') = Train.grads (Saliency.net self)
  /\ Train.opt_state (Saliency.net self')
     = Train.opt_state (Saliency.net self)
  /\ Train.training (Saliency.net self') = m
  /\ Saliency.train_metrics self' = Saliency.train_metrics self
  /\ Saliency.test_metrics self' = Saliency.test_metrics self
  /\ Saliency.val_metrics self'
     = Saliency.update_metrics T (Saliency.val_metrics self)
         (forward T p m (fst b)) (snd b)
  /\ Saliency.trainer self' = Saliency.trainer self
  /\ Saliency.loggers self' = Saliency.loggers self
  /\ Saliency.tensorboard self' = Saliency.tensorboard self
  /\ Saliency.figures self'
     = Saliency.figures self ++ (if batch_idx =? 0 then [fig] else [])
  /\ snd (Saliency.validation_batch T self (batch_idx, b))
     = if (batch_idx =? 0)
          && existsb Saliency.is_tensorboard (Saliency.loggers self)
       then Saliency.Raised Saliency.TypeError
       else Saliency.Returned.
Proof.
  destruct b as [image ground_truth]. cbv zeta.
  unfold Saliency.validation_batch, Saliency.validation_step,
    Saliency.on_validation_batch_end, Saliency.forward_call; simpl.
  destruct (batch_idx =? 0); simpl.
  - rewrite save_image_effect; simpl. repeat split.
  - rewrite app_nil_r. repeat split.
Qed.

(** What a test round leaves, hook included, once the trainer has counted
    the batches. *)
Lemma test_round_state (n : Z) (self : Saliency.SaliencyModel T)
    (batch_idx : Z) (b : Saliency.batch T) :
  Saliency.num_test_batches (Saliency.trainer self) = [n] ->
  let p := Train.params (Saliency.net self) in
  let m := Train.training (Saliency.net self) in
  let fig :=
    Saliency.Build_Figure T
      ("test epoch: "
       ++ str_of_int (Saliency.current_epoch (Saliency.trainer self)))%string
      (sample0 T (normalized T (fst b)))
      (sample0 T (normalized T (snd b)))
      (sample0 T (normalized T (forward T p m (fst b)))) in
  let self' := fst (Saliency.test_batch T self (batch_idx, b)) in
  Train.params (Saliency.net self') = p
  /\ Train.grads (Saliency.net self') = Train.grads (Saliency.net self)
  /\ Train.opt_state (Saliency.net self')
     = Train.opt_state (Saliency.net self)
  /\ Train.training (Saliency.net self') = m
  /\ Saliency.train_metrics self' = Saliency.train_metrics self
  /\ Saliency.val_metrics self' = Saliency.val_metrics self
  /\ Saliency.test_metrics self'
     = Saliency.update_metrics T (Saliency.test_metrics self)
         (forward T p m (fst b)) (snd b)
  /\ Saliency.trainer self' = Saliency.trainer self
  /\ Saliency.loggers self' = Saliency.loggers self
  /\ Saliency.tensorboard self' = Saliency.tensorboard self
  /\ Saliency.figures self'
     = Saliency.figures self ++ (if batch_idx =? n - 1 then [fig] else [])
  /\ snd (Saliency.test_batch T self (batch_idx, b))
     = if (batch_idx =? n - 1)
          && existsb Saliency.is_tensorboard (Saliency.loggers self)
       then Saliency.Raised Saliency.TypeError
       else Saliency.Returned.
Proof.
  intros Hn. destruct b as [image ground_truth]. cbv zeta.
  unfold Saliency.test_batch, Saliency.test_step,
    Saliency.on_test_batch_end, Saliency.forward_call; simpl.
  rewrite Hn. unfold Py.getitem; simpl.
  destruct (batch_idx =? n - 1); simpl.
  - rewrite save_image_effect; simpl. repeat split.
  - rewrite app_nil_r. repeat split.
Qed.

End SnapshotFacts.

(** C3 (amended).  Over [n >= 1] batches [save_image] is called, and draws
    its figure, exactly once per pass: in a training epoch on batch index
    [n - 1], in a validation pass on batch index [0], and in a test pass on
    batch index [n - 1] (the final batch, as in training).  The module the
    pass leaves, be it by returning or by the [TypeError] of [add_image],
    holds one figure more than before. *)
Theorem C3_snapshot_trigger_policy :
  forall (T : Torch) (self : Saliency.SaliencyModel T)
         (batches : list (Saliency.batch T)),
    batches <> [] ->
    Saliency.training_snapshots T self batches = [len batches - 1]
    /\ Saliency.validation_snapshots T self batches = [0]
    /\ Saliency.test_snapshots T self batches = [len batches - 1]
    /\ List.length
         (Saliency.figures (fst (Saliency.training_epoch T self batches)))
       = S (List.length (Saliency.figures self))
    /\ List.length
         (Saliency.figures (fst (Saliency.validation_pass T self batches)))
       = S (List.length (Saliency.figures self))
    /\ List.length
         (Saliency.figures (fst (Saliency.test_pass T self batches)))
       = S (List.length (Saliency.figures self)).
Proof.
  intros T self batches Hne.
  assert (Htrain :
    Saliency.training_snapshots T self batches = [len batches - 1]
    /\ List.length
         (Saliency.figures (fst (Saliency.training_epoch T self batches)))
       = S (List.length (Saliency.figures self))).
  { destruct (exists_last Hne) as (init & final & Hsplit).
    unfold Saliency.training_snapshots, Saliency.training_epoch.
    set (start := Saliency.begin_training_epoch T self batches).
    assert (Hlen : len batches - 1 = len init)
      by (rewrite Hsplit; unfold len; rewrite length_app; simpl; lia).
    rewrite Hsplit at 1 3. rewrite enumerate_snoc, Hlen.
    apply (pass_with_one_snapshot T (Saliency.training_batch T)
             (fun s => Saliency.num_training_batches (Saliency.trainer s)
                       = len batches)
             (Saliency.enumerate init) [] (len init, final) start).
    - intros s0 [i b] Hin Hinv. rewrite app_nil_r in Hin.
      apply enumerate_bound in Hin.
      destruct (training_round_state T s0 i b)
        as (_ & _ & _ & _ & _ & Htr & _ & _ & Hfig & Hend).
      rewrite Hinv in Hfig, Hend.
      replace (i =? len batches - 1) with false in Hfig, Hend
        by (symmetry; apply Z.eqb_neq; lia).
      rewrite app_nil_r in Hfig. cbn [andb] in Hend.
      split; [now rewrite Htr | split; assumption].
    - intros s0 Hinv.
      destruct (training_round_state T s0 (len init) final)
        as (_ & _ & _ & _ & _ & Htr & _ & _ & Hfig & _).
      rewrite Hinv, Hlen, Z.eqb_refl in Hfig.
      split; [now rewrite Htr|].
      rewrite Hfig, length_app; simpl; lia.
    - reflexivity. }
  assert (Hval :
    Saliency.validation_snapshots T self batches = [0]
    /\ List.length
         (Saliency.figures (fst (Saliency.validation_pass T self batches)))
       = S (List.length (Saliency.figures self))).
  { destruct batches as [|first others]; [congruence|].
    unfold Saliency.validation_snapshots, Saliency.validation_pass.
    rewrite enumerate_cons.
    apply (pass_with_one_snapshot T (Saliency.validation_batch T)
             (fun _ => True) [] _ (0, first)
             (Saliency.begin_validation_pass T self)).
    - intros s0 [i b] Hin _. cbn [app] in Hin.
      apply enumerate_tail_positive in Hin.
      destruct (validation_round_state T s0 i b)
        as (_ & _ & _ & _ & _ & _ & _ & _ & _ & _ & Hfig & Hend).
      replace (i =? 0) with false in Hfig, Hend
        by (symmetry; apply Z.eqb_neq; lia).
      rewrite app_nil_r in Hfig. cbn [andb] in Hend.
      split; [exact I | split; assumption].
    - intros s0 _.
      destruct (validation_round_state T s0 0 first)
        as (_ & _ & _ & _ & _ & _ & _ & _ & _ & _ & Hfig & _).
      cbn [Z.eqb] in Hfig.
      split; [exact I|].
      rewrite Hfig, length_app; simpl; lia.
    - exact I. }
  assert (Htest :
    Saliency.test_snapshots T self batches = [len batches - 1]
    /\ List.length
         (Saliency.figures (fst (Saliency.test_pass T self batches)))
       = S (List.length (Saliency.figures self))).
  { destruct (exists_last Hne) as (init & final & Hsplit).
    unfold Saliency.test_snapshots, Saliency.test_pass.
    set (start := Saliency.begin_test_pass T self batches).
    assert (Hlen : len batches - 1 = len init)
      by (rewrite Hsplit; unfold len; rewrite length_app; simpl; lia).
    rewrite Hsplit at 1 3. rewrite enumerate_snoc, Hlen.
    apply (pass_with_one_snapshot T (Saliency.test_batch T)
             (fun s => Saliency.num_test_batches (Saliency.trainer s)
                       = [len batches])
             (Saliency.enumerate init) [] (len init, final) start).
    - intros s0 [i b] Hin Hinv. rewrite app_nil_r in Hin.
      apply enumerate_bound in Hin.
      destruct (test_round_state T (len batches) s0 i b Hinv)
        as (_ & _ & _ & _ & _ & _ & _ & Htr & _ & _ & Hfig & Hend).
      replace (i =? len batches - 1) with false in Hfig, Hend
        by (symmetry; apply Z.eqb_neq; lia).
      rewrite app_nil_r in Hfig. cbn [andb] in Hend.
      split; [now rewrite Htr | split; assumption].
    - intros s0 Hinv.
      destruct (test_round_state T (len batches) s0 (len init) final Hinv)
        as (_ & _ & _ & _ & _ & _ & _ & Htr & _ & _ & Hfig & _).
      rewrite Hlen, Z.eqb_refl in Hfig.
      split; [now rewrite Htr|].
      rewrite Hfig, length_app; simpl; lia.
    - reflexivity. }
  destruct Htrain as [Htrain1 Htrain2], Hval as [Hval1 Hval2],
    Htest as [Htest1 Htest2].
  repeat split; assumption.
Qed.

(** C3 at work on the five-batch epoch of the specification: training
    draws on batch index 4, validation on batch index 0. *)
Lemma C3_five_batches_witness :
  Saliency.training_snapshots toy_torch toy_model
    [(1, 1); (2, 2); (3, 3); (4, 4); (5, 5)] = [4]
  /\ Saliency.validation_snapshots toy_torch toy_model
       [(1, 1); (2, 2); (3, 3); (4, 4); (5, 5)] = [0]
  /\ Saliency.test_snapshots toy_torch toy_model
       [(1, 1); (2, 2); (3, 3); (4, 4); (5, 5)] = [4].
Proof.
  destruct (C3_snapshot_trigger_policy toy_torch toy_model
              [(1, 1); (2, 2); (3, 3); (4, 4); (5, 5)])
    as (Htrain & Hval & Htest & _).
  - discriminate.
  - split; [exact Htrain | split; [exact Hval | exact Htest]].
Defined.

(** C3, as stated, fails for the test pass: over two batches the snapshot
    is drawn on batch index 1 and not on batch index 0.  This is so with
    and without a TensorBoard logger. *)
Lemma C3_test_snapshot_not_on_first_batch :
  Saliency.test_snapshots toy_torch toy_model [(1, 1); (2, 2)] = [1]
  /\ Saliency.test_snapshots toy_torch toy_model [(1, 1); (2, 2)] <> [0]
  /\ Saliency.test_snapshots toy_torch toy_model_plain [(1, 1); (2, 2)] = [1]
  /\ Saliency.test_snapshots toy_torch toy_model_plain [(1, 1); (2, 2)]
     <> [0].
Proof.
  repeat split; try reflexivity; vm_compute; discriminate.
Qed.

(* ================================================================== *)
(** * Further properties: the catalogs *)
(* ================================================================== *)

(** Every pair of a positional zip of two sorted listings takes its first
    path from the first listing and its second from the second. *)
Lemma zip_sorted_members (images maps : list string) (ip mp : string) :
  In (ip, mp) (zip (sorted images) (sorted maps)) ->
  In ip images /\ In mp maps.
Proof.
  intros Hin. unfold zip in Hin. split.
  - apply in_combine_l in Hin.
    eapply Permutation_in; [apply Permutation_sym, sorted_perm | exact Hin].
  - apply in_combine_r in Hin.
    eapply Permutation_in; [apply Permutation_sym, sorted_perm | exact Hin].
Qed.

(** X1.  A built catalog holds listed files only, and never pairs across
    categories: each pair takes its image from the image listing and its
    map from the map listing of one and the same configured category. *)
Theorem catalog_pairs_come_from_one_category :
  forall (Img : Type) (w : World Img) (root : string)
         (cats : option (list string)) (it mt : transform Img)
         (ip mp : string),
    (In (ip, mp) (Imp1k.image_map_pair_cache (Imp1k.init w root cats it mt)) ->
     exists category,
       In category (or_default cats Imp1k.Imp1kCategories.all)
       /\ In ip (imp1k_images w (new_downloader w root Imp1k.URL) category)
       /\ In mp (imp1k_maps w (new_downloader w root Imp1k.URL) category))
    /\ (In (ip, mp)
          (Salicon.image_map_pair_cache (Salicon.init w root cats it mt)) ->
        exists category,
          In category (or_default cats ["test"; "train"]%string)
          /\ In ip (salicon_images w
                      (new_gdrive_downloader w (root ++ "/salicon")%string
                         Salicon.IMAGE_ID "images.zip") category)
          /\ In mp (salicon_maps w
                      (new_gdrive_downloader w (root ++ "/salicon")%string
                         Salicon.MAPS_ID "maps.zip") category)).
Proof.
  intros Img w root cats it mt ip mp. split.
  - rewrite imp1k_init_cache. intros Hin.
    apply in_flat_map in Hin. destruct Hin as (category & Hcat & Hin).
    unfold imp1k_category_pairs in Hin. apply filter_In in Hin.
    destruct Hin as [Hin _].
    apply zip_sorted_members in Hin. exists category. tauto.
  - rewrite salicon_init_cache. intros Hin.
    apply in_flat_map in Hin. destruct Hin as (category & Hcat & Hin).
    apply zip_sorted_members in Hin. exists category. tauto.
Qed.

(** X2.  The SALICON catalog has, category by category, as many pairs as
    the shorter of the two listings has files; the Imp1k catalog has at
    most that many. *)
Theorem catalog_length_by_category :
  forall (Img : Type) (w : World Img) (root : string)
         (cats : option (list string)) (it mt : transform Img),
    Salicon.length (Salicon.init w root cats it mt)
    = Z.of_nat
        (list_sum
           (map (fun category =>
                   Nat.min
                     (List.length
                        (salicon_images w
                           (new_gdrive_downloader w (root ++ "/salicon")%string
                              Salicon.IMAGE_ID "images.zip") category))
                     (List.length
                        (salicon_maps w
                           (new_gdrive_downloader w (root ++ "/salicon")%string
                              Salicon.MAPS_ID "maps.zip") category)))
              (or_default cats ["test"; "train"]%string)))
    /\ Imp1k.length (Imp1k.init w root cats it mt)
       <= Z.of_nat
            (list_sum
               (map (fun category =>
                       Nat.min
                         (List.length
                            (imp1k_images w (new_downloader w root Imp1k.URL)
                               category))
                         (List.length
                            (imp1k_maps w (new_downloader w root Imp1k.URL)
                               category)))
                  (or_default cats Imp1k.Imp1kCategories.all))).
Proof.
  intros Img w root cats it mt. split.
  - unfold Salicon.length, len.
    rewrite salicon_init_cache, length_flat_map. do 2 f_equal.
    apply map_ext. intros category.
    unfold salicon_category_pairs, zip.
    now rewrite length_combine, !sorted_length.
  - unfold Imp1k.length, len.
    rewrite imp1k_init_cache, length_flat_map. apply inj_le.
    induction (or_default cats Imp1k.Imp1kCategories.all)
      as [|category rest IH]; simpl; [lia|].
    apply Nat.add_le_mono; [|exact IH].
    unfold imp1k_category_pairs.
    etransitivity; [apply filter_length_le|].
    unfold imp1k_positional_pairs, zip.
    now rewrite length_combine, !sorted_length.
Qed.

(** X3.  Categories are processed one after another, in the configured
    order: the catalog of two non-empty category lists put end to end is
    the catalog of the first followed by the catalog of the second. *)
Theorem catalog_of_concatenated_categories :
  forall (Img : Type) (w : World Img) (root : string)
         (cats1 cats2 : list string) (it mt : transform Img),
    cats1 <> [] -> cats2 <> [] ->
    Imp1k.image_map_pair_cache
      (Imp1k.init w root (Some (cats1 ++ cats2)) it mt)
    = Imp1k.image_map_pair_cache (Imp1k.init w root (Some cats1) it mt)
      ++ Imp1k.image_map_pair_cache (Imp1k.init w root (Some cats2) it mt)
    /\ Salicon.image_map_pair_cache
         (Salicon.init w root (Some (cats1 ++ cats2)) it mt)
       = Salicon.image_map_pair_cache (Salicon.init w root (Some cats1) it mt)
         ++ Salicon.image_map_pair_cache
              (Salicon.init w root (Some cats2) it mt).
Proof.
  intros Img w root cats1 cats2 it mt Hne1 Hne2.
  assert (Hor : forall (default cats : list string),
             cats <> [] -> or_default (Some cats) default = cats)
    by (intros default [|c cats] H; [congruence | reflexivity]).
  assert (Hne : cats1 ++ cats2 <> [])
    by (destruct cats1; [congruence | discriminate]).
  rewrite !imp1k_init_cache, !salicon_init_cache.
  rewrite !Hor by assumption.
  now rewrite !flat_map_app.
Qed.

Lemma catalog_of_concatenated_categories_witness :
  Imp1k.image_map_pair_cache
    (Imp1k.init scenario_world "/data"
       (Some (["ads"] ++ ["webpages"; "ads"])%list) None None)
  = Imp1k.image_map_pair_cache
      (Imp1k.init scenario_world "/data" (Some ["ads"%string]) None None)
    ++ Imp1k.image_map_pair_cache
         (Imp1k.init scenario_world "/data"
            (Some ["webpages"; "ads"]%string) None None).
Proof.
  apply (catalog_of_concatenated_categories Z scenario_world "/data"
           ["ads"%string] ["webpages"; "ads"]%string None None);
    discriminate.
Defined.

(* ================================================================== *)
(** * Further properties: train, validation, visualize and fit *)
(* ================================================================== *)

Section FitFacts.
Context (T : Torch).

(** The session one round of the training loop leaves: fresh gradients of
    the batch alone, parameters and optimizer state from one step on
    them, and four more calls on record. *)
Lemma train_batch_state (s : Train.Session T) (acc : Q) (b : Train.batch T) :
  let g :=
    backward T (Train.params s) (Train.training s) (fst b) (snd b)
      (zero_grads T) in
  let stepped := optimizer_step T (Train.opt_state s) g (Train.params s) in
  fst (Train.train_batch T (s, acc) b)
  = Train.Build_Session T (snd stepped) g (fst stepped) (Train.training s)
      (Train.calls s
       ++ [CallZeroGrad; CallForward; CallBackward; CallStep]).
Proof.
  destruct b as [image ground_truth]. cbv zeta.
  unfold Train.train_batch, Train.optimizer_step_call; simpl.
  destruct (optimizer_step T _ _ _) as [o p]; simpl.
  now rewrite <- !app_assoc.
Qed.

Lemma train_unfold (s : Train.Session T) (dataloader : list (Train.batch T)) :
  Train.train T s dataloader
  = (fst (fold_left (Train.train_batch T) dataloader
            (Train.model_train T s, 0%Q)),
     bind (truediv
             (snd (fold_left (Train.train_batch T) dataloader
                     (Train.model_train T s, 0%Q)))
             (len dataloader))
       (fun v => Return (Train.loss_dict v))).
Proof.
  unfold Train.train. now destruct (fold_left _ _ _).
Qed.

Lemma validation_unfold (s : Train.Session T)
    (dataloader : list (Train.batch T)) :
  Train.validation T s dataloader
  = (fst (fold_left (Train.eval_batch T) dataloader
            (Train.model_eval T s, 0%Q)),
     bind (truediv
             (snd (fold_left (Train.eval_batch T) dataloader
                     (Train.model_eval T s, 0%Q)))
             (len dataloader))
       (fun v => Return (Train.loss_dict v))).
Proof.
  unfold Train.validation. now destruct (fold_left _ _ _).
Qed.

(** The training loop keeps the mode and records four calls per batch. *)
Lemma train_loop_calls (dataloader : list (Train.batch T))
    (s : Train.Session T) (acc : Q) :
  Train.training (fst (fold_left (Train.train_batch T) dataloader (s, acc)))
  = Train.training s
  /\ Train.calls (fst (fold_left (Train.train_batch T) dataloader (s, acc)))
     = Train.calls s
       ++ flat_map
            (fun _ => [CallZeroGrad; CallForward; CallBackward; CallStep])
            dataloader.
Proof.
  revert s acc.
  induction dataloader as [|b rest IH]; intros s acc;
    cbn [fold_left flat_map].
  - now rewrite app_nil_r.
  - rewrite train_batch_effect.
    destruct (IH (fst (Train.train_batch T (s, 0%Q) b))
                (acc + batch_loss T s b)%Q) as [Hmode Hcalls].
    rewrite Hmode, Hcalls, train_batch_state; simpl.
    now rewrite <- app_assoc.
Qed.

(** The training loop reads the session through its parameters, its
    optimizer state and its mode only. *)
Lemma train_loop_ext (dataloader : list (Train.batch T))
    (s1 s2 : Train.Session T) (acc : Q) :
  Train.params s1 = Train.params s2 ->
  Train.opt_state s1 = Train.opt_state s2 ->
  Train.training s1 = Train.training s2 ->
  Train.params (fst (fold_left (Train.train_batch T) dataloader (s1, acc)))
  = Train.params (fst (fold_left (Train.train_batch T) dataloader (s2, acc)))
  /\ Train.opt_state
       (fst (fold_left (Train.train_batch T) dataloader (s1, acc)))
     = Train.opt_state
         (fst (fold_left (Train.train_batch T) dataloader (s2, acc)))
  /\ snd (fold_left (Train.train_batch T) dataloader (s1, acc))
     = snd (fold_left (Train.train_batch T) dataloader (s2, acc)).
Proof.
  revert s1 s2 acc.
  induction dataloader as [|b rest IH]; intros s1 s2 acc Hp Ho Hm;
    cbn [fold_left].
  - auto.
  - rewrite (train_batch_effect T s1 acc b), (train_batch_effect T s2 acc b).
    rewrite (batch_loss_ext T s2 s1 b Hp Hm).
    apply IH; rewrite !train_batch_state; simpl;
      rewrite ?Hp, ?Ho, ?Hm; reflexivity.
Qed.

End FitFacts.

(** X5.  Training never reads gradients left over from before, nor the
    mode the model was in: two sessions with the same parameters and
    optimizer state come out of [train] with the same parameters, the same
    optimizer state and the same result, whatever their gradients, mode
    and history were. *)
Theorem train_ignores_stale_gradients :
  forall (T : Torch) (s1 s2 : Train.Session T)
         (dataloader : list (Train.batch T)),
    Train.params s1 = Train.params s2 ->
    Train.opt_state s1 = Train.opt_state s2 ->
    Train.params (fst (Train.train T s1 dataloader))
    = Train.params (fst (Train.train T s2 dataloader))
    /\ Train.opt_state (fst (Train.train T s1 dataloader))
       = Train.opt_state (fst (Train.train T s2 dataloader))
    /\ snd (Train.train T s1 dataloader) = snd (Train.train T s2 dataloader).
Proof.
  intros T s1 s2 dataloader Hp Ho.
  rewrite !train_unfold. cbn [fst snd].
  destruct (train_loop_ext T dataloader (Train.model_train T s1)
              (Train.model_train T s2) 0%Q Hp Ho eq_refl)
    as (Hp' & Ho' & Hloss).
  now rewrite Hp', Ho', Hloss.
Qed.

Lemma train_ignores_stale_gradients_witness :
  snd (Train.train toy_torch toy_session [(1, 2); (2, 2)])
  = snd (Train.train toy_torch
           (Train.Build_Session toy_torch 1 7 tt true [CallStep])
           [(1, 2); (2, 2)]).
Proof.
  apply (train_ignores_stale_gradients toy_torch toy_session
           (Train.Build_Session toy_torch 1 7 tt true [CallStep])
           [(1, 2); (2, 2)]); reflexivity.
Defined.

(** X6.  [train] puts the model in training mode and then, for each batch
    in turn, clears the gradients, runs the model, backpropagates and
    steps the optimizer, in that order and nothing else: one optimizer step
    per batch, each on the gradients of its own batch. *)
Theorem train_call_sequence :
  forall (T : Torch) (s : Train.Session T)
         (dataloader : list (Train.batch T)),
    Train.calls (fst (Train.train T s dataloader))
    = Train.calls s ++ Fit.train_calls T dataloader
    /\ Train.training (fst (Train.train T s dataloader)) = true
    /\ forall b, Train.grads (fst (Train.train T s (dataloader ++ [b])))
        = backward T
            (Train.params (fst (Train.train T s dataloader))) true
            (fst b) (snd b) (zero_grads T).
Proof.
  intros T s dataloader.
  rewrite !train_unfold. cbn [fst].
  destruct (train_loop_calls T dataloader (Train.model_train T s) 0%Q)
    as [Hmode Hcalls].
  split; [|split].
  - rewrite Hcalls; simpl. now rewrite <- app_assoc.
  - exact Hmode.
  - intros b. rewrite train_unfold, fold_left_app. cbn [fst fold_left].
    destruct (fold_left (Train.train_batch T) dataloader
                (Train.model_train T s, 0%Q)) as [s' acc] eqn:Hloop.
    rewrite train_batch_state; simpl.
    cbn [fst] in Hmode. now rewrite Hmode.
Qed.

Section FitLoopFacts.
Context (T : Torch).

Lemma range_nonpositive (n : Z) : n <= 0 -> Fit.range n = [].
Proof.
  intros Hn. unfold Fit.range.
  now replace (Z.to_nat n) with 0%nat by lia.
Qed.

Lemma range_positive (n : Z) :
  0 < n -> exists rest, Fit.range n = 0 :: rest.
Proof.
  intros Hn. unfold Fit.range.
  destruct (Z.to_nat n) as [|k] eqn:Hk; [lia|].
  simpl. eauto.
Qed.

Lemma range_length (n : Z) : List.length (Fit.range n) = Z.to_nat n.
Proof.
  unfold Fit.range. now rewrite length_map, length_seq.
Qed.

(** The session a validation run leaves. *)
Lemma validation_state (s : Train.Session T)
    (dataloader : list (Train.batch T)) :
  fst (Train.validation T s dataloader)
  = Train.Build_Session T (Train.params s) (Train.grads s)
      (Train.opt_state s) false
      (Train.calls s
       ++ CallEval :: repeat CallForward (List.length dataloader)).
Proof.
  rewrite validation_unfold. cbn [fst].
  rewrite eval_loop_state; simpl. now rewrite <- app_assoc.
Qed.

(** Over batches, a runner returns a dict holding the key ["loss"]. *)
Lemma train_returns (s : Train.Session T) (dataloader : list (Train.batch T)) :
  dataloader <> [] ->
  exists v, snd (Train.train T s dataloader) = Return (Train.loss_dict v).
Proof.
  intros Hne. rewrite train_unfold. cbn [snd].
  rewrite truediv_nonempty by exact Hne. simpl. eauto.
Qed.

Lemma validation_returns (s : Train.Session T)
    (dataloader : list (Train.batch T)) :
  dataloader <> [] ->
  exists v, snd (Train.validation T s dataloader)
            = Return (Train.loss_dict v).
Proof.
  intros Hne. rewrite validation_unfold. cbn [snd].
  rewrite truediv_nonempty by exact Hne. simpl. eauto.
Qed.

(** One epoch of [fit] over two loaders that both hold batches. *)
Lemma epoch_body_finishes (dm : Fit.DataModule T) (s : Train.Session T) :
  Fit.train_dataloader dm <> [] ->
  Fit.val_dataloader dm <> [] ->
  exists losses,
    snd (Fit.epoch_body T dm s) = Fit.Finished losses
    /\ Train.calls (fst (Fit.epoch_body T dm s))
       = Train.calls s ++ Fit.epoch_calls T dm
    /\ Train.training (fst (Fit.epoch_body T dm s)) = false
    /\ Train.params (fst (Fit.epoch_body T dm s))
       = Train.params (fst (Train.train T s (Fit.train_dataloader dm)))
    /\ Train.opt_state (fst (Fit.epoch_body T dm s))
       = Train.opt_state (fst (Train.train T s (Fit.train_dataloader dm))).
Proof.
  intros Htrain Hval.
  destruct (train_returns s _ Htrain) as [tv Htv].
  unfold Fit.epoch_body.
  destruct (Train.train T s (Fit.train_dataloader dm)) as [s1 r1] eqn:Hrun1.
  cbn [snd fst] in *. subst r1.
  destruct (validation_returns s1 _ Hval) as [vv Hvv].
  pose proof (validation_state s1 (Fit.val_dataloader dm)) as Hs2.
  destruct (Train.validation T s1 (Fit.val_dataloader dm))
    as [s2 r2] eqn:Hrun2.
  cbn [snd fst] in *. subst r2 s2.
  destruct (Fit.val_dataloader dm) as [|[image ground_truth] rest] eqn:Hvdl;
    [congruence|].
  eexists. split; [reflexivity|]. simpl.
  repeat split.
  pose proof (train_loop_calls T (Fit.train_dataloader dm)
                (Train.model_train T s) 0%Q) as [_ Hcalls].
  rewrite train_unfold in Hrun1. injection Hrun1 as Hs1 _.
  rewrite <- Hs1, Hcalls. unfold Fit.epoch_calls, Fit.train_calls.
  rewrite Hvdl; simpl. now rewrite <- !app_assoc.
Qed.

End FitLoopFacts.

Section FitOutcomes.
Context (T : Torch) (dm : Fit.DataModule T).

(** The loop of [fit] over two loaders that both hold batches: it runs
    every round, and each round makes the same calls. *)
Lemma epochs_loop_finishes :
  Fit.train_dataloader dm <> [] ->
  Fit.val_dataloader dm <> [] ->
  forall (rounds : list Z) (s : Train.Session T) (printed : list (Q * Q)),
  exists report,
    snd (Fit.epochs_loop T dm rounds s printed) = Fit.Finished report
    /\ List.length report
       = (List.length printed + List.length rounds)%nat
    /\ Train.calls (fst (Fit.epochs_loop T dm rounds s printed))
       = Train.calls s
         ++ List.concat (repeat (Fit.epoch_calls T dm) (List.length rounds))
    /\ Train.training (fst (Fit.epochs_loop T dm rounds s printed))
       = match rounds with
         | [] => Train.training s
         | _ :: _ => false
         end.
Proof.
  intros Htrain Hval rounds.
  induction rounds as [|epoch rest IH]; intros s printed;
    cbn [Fit.epochs_loop].
  - exists printed. simpl. rewrite app_nil_r. repeat split. lia.
  - destruct (epoch_body_finishes T dm s Htrain Hval)
      as (losses & Hrun & Hcalls & Hmode & _).
    destruct (Fit.epoch_body T dm s) as [s1 r1].
    cbn [fst snd] in *. subst r1.
    destruct (IH s1 (printed ++ [losses]))
      as (report & Hreport & Hlen & Hcalls' & Hmode').
    exists report. split; [exact Hreport|]. split; [|split].
    + rewrite Hlen, length_app; simpl. lia.
    + rewrite Hcalls', Hcalls; simpl. now rewrite <- app_assoc.
    + rewrite Hmode'. now destruct rest.
Qed.

(** With no batch to train on, the first round stops in [train], right
    after [model.train()]. *)
Lemma epoch_body_without_training_batches (s : Train.Session T) :
  Fit.train_dataloader dm = [] ->
  Fit.epoch_body T dm s
  = (Train.model_train T s, Fit.Aborted (Fit.Runner ZeroDivisionError)).
Proof.
  intros Htrain. unfold Fit.epoch_body. now rewrite Htrain.
Qed.

(** With batches to train on and none to validate on, the first round
    stops in [validation], after the training pass and [model.eval()]. *)
Lemma epoch_body_without_validation_batches (s : Train.Session T) :
  Fit.train_dataloader dm <> [] ->
  Fit.val_dataloader dm = [] ->
  Fit.epoch_body T dm s
  = (Train.model_eval T (fst (Train.train T s (Fit.train_dataloader dm))),
     Fit.Aborted (Fit.Runner ZeroDivisionError)).
Proof.
  intros Htrain Hval. unfold Fit.epoch_body.
  destruct (train_returns T s _ Htrain) as [tv Htv].
  destruct (Train.train T s (Fit.train_dataloader dm)) as [s1 r1].
  cbn [fst snd] in *. subst r1. now rewrite Hval.
Qed.

Lemma fit_first_round (s : Train.Session T) (epochs : Z) :
  0 < epochs ->
  Fit.fit T s dm epochs
  = (let '(s1, r) := Fit.epoch_body T dm s in
     match r with
     | Fit.Aborted x => (s1, Fit.Aborted x)
     | Fit.Finished losses =>
         Fit.epochs_loop T dm (tl (Fit.range epochs)) s1 [losses]
     end).
Proof.
  intros Hpos. unfold Fit.fit.
  destruct (range_positive epochs Hpos) as [rest ->].
  reflexivity.
Qed.

End FitOutcomes.

Section FitReports.
Context (T : Torch) (dm : Fit.DataModule T).

(** Over batches, [train] returns the mean of the losses of its batches. *)
Lemma train_returns_mean (s : Train.Session T)
    (dataloader : list (Train.batch T)) :
  dataloader <> [] ->
  exists v,
    snd (Train.train T s dataloader) = Return [("loss"%string, v)]
    /\ (v == mean_loss (train_losses T (Train.model_train T s) dataloader))%Q.
Proof.
  intros Hne.
  assert (Hlen : len (train_losses T (Train.model_train T s) dataloader)
                 = len dataloader)
    by (unfold len; now rewrite train_losses_length).
  pose proof (train_loop_loss T dataloader (Train.model_train T s) 0%Q)
    as Hsum.
  unfold Train.train.
  destruct (fold_left (Train.train_batch T) dataloader
              (Train.model_train T s, 0%Q)) as [s' epoch_loss].
  rewrite (truediv_nonempty dataloader epoch_loss Hne). simpl in *.
  eexists. split; [reflexivity|].
  unfold mean_loss. rewrite Hlen, Hsum. now rewrite Qplus_0_l.
Qed.

(** Over batches, [validation] returns the mean of the losses of its
    batches. *)
Lemma validation_returns_mean (s : Train.Session T)
    (dataloader : list (Train.batch T)) :
  dataloader <> [] ->
  exists v,
    snd (Train.validation T s dataloader) = Return [("loss"%string, v)]
    /\ (v == mean_loss (eval_losses T (Train.model_eval T s) dataloader))%Q.
Proof.
  intros Hne.
  assert (Hlen : len (eval_losses T (Train.model_eval T s) dataloader)
                 = len dataloader)
    by (unfold len, eval_losses; now rewrite length_map).
  pose proof (eval_loop_loss T dataloader (Train.model_eval T s) 0%Q)
    as Hsum.
  unfold Train.validation.
  destruct (fold_left (Train.eval_batch T) dataloader
              (Train.model_eval T s, 0%Q)) as [s' epoch_loss].
  rewrite (truediv_nonempty dataloader epoch_loss Hne). simpl in *.
  eexists. split; [reflexivity|].
  unfold mean_loss. rewrite Hlen, Hsum. now rewrite Qplus_0_l.
Qed.

Lemma empty_or_not {A : Type} (l : list A) : l = [] \/ l <> [].
Proof. destruct l; [now left | right; discriminate]. Qed.

(** An epoch of [fit] that comes to its end has printed the two means, has
    made the calls of one training pass, one validation pass and one
    visualisation, and leaves the model in eval mode. *)
Lemma epoch_body_when_finished (s : Train.Session T) (losses : Q * Q) :
  snd (Fit.epoch_body T dm s) = Fit.Finished losses ->
  reports_epoch_means T dm s losses
  /\ Train.calls (fst (Fit.epoch_body T dm s))
     = Train.calls s ++ Fit.epoch_calls T dm
  /\ Train.training (fst (Fit.epoch_body T dm s)) = false.
Proof.
  destruct (empty_or_not (Fit.train_dataloader dm)) as [Htrain|Htrain].
  { rewrite epoch_body_without_training_batches by exact Htrain.
    discriminate. }
  destruct (empty_or_not (Fit.val_dataloader dm)) as [Hval|Hval].
  { rewrite epoch_body_without_validation_batches by assumption.
    discriminate. }
  destruct (train_returns_mean s _ Htrain) as (tv & Htv & Htmean).
  unfold Fit.epoch_body, reports_epoch_means.
  destruct (Train.train T s (Fit.train_dataloader dm)) as [s1 r1] eqn:Hrun1.
  cbn [snd fst] in *. subst r1.
  destruct (validation_returns_mean s1 _ Hval) as (vv & Hvv & Hvmean).
  pose proof (validation_state T s1 (Fit.val_dataloader dm)) as Hs2.
  destruct (Train.validation T s1 (Fit.val_dataloader dm))
    as [s2 r2] eqn:Hrun2.
  cbn [snd fst] in *. subst r2 s2.
  destruct (Fit.val_dataloader dm) as [|[image ground_truth] rest] eqn:Hvdl;
    [congruence|].
  simpl. intros [= <-]. cbn [fst snd].
  split; [split; assumption|]. split; [|reflexivity].
  pose proof (train_loop_calls T (Fit.train_dataloader dm)
                (Train.model_train T s) 0%Q) as [_ Hcalls].
  rewrite train_unfold in Hrun1. injection Hrun1 as Hs1 _.
  rewrite <- Hs1, Hcalls. unfold Fit.epoch_calls, Fit.train_calls.
  rewrite Hvdl; simpl. now rewrite <- !app_assoc.
Qed.

(** The loop of [fit], when it comes to its end: one entry per round has
    been added to what was printed before. *)
Lemma epochs_loop_when_finished (rounds : list Z) :
  forall (s : Train.Session T) (printed report : list (Q * Q)),
    snd (Fit.epochs_loop T dm rounds s printed) = Fit.Finished report ->
    exists added,
      report = printed ++ added
      /\ Forall2 (reports_epoch_means T dm)
           (epoch_sessions T dm (List.length rounds) s) added
      /\ Train.calls (fst (Fit.epochs_loop T dm rounds s printed))
         = Train.calls s
           ++ List.concat (repeat (Fit.epoch_calls T dm) (List.length rounds))
      /\ Train.training (fst (Fit.epochs_loop T dm rounds s printed))
         = match rounds with
           | [] => Train.training s
           | _ :: _ => false
           end.
Proof.
  induction rounds as [|epoch rest IH]; intros s printed report;
    cbn [Fit.epochs_loop].
  - intros [= <-]. exists []. simpl. rewrite !app_nil_r.
    repeat split. constructor.
  - pose proof (epoch_body_when_finished s) as Hbody.
    destruct (Fit.epoch_body T dm s) as [s1 r1] eqn:Hrun.
    destruct r1 as [losses|x]; [|discriminate].
    destruct (Hbody losses eq_refl) as (Hmeans & Hcalls & Hmode).
    cbn [fst] in Hcalls, Hmode.
    intros Hfin.
    destruct (IH s1 (printed ++ [losses]) report Hfin)
      as (added & Hreport & Hall & Hcalls' & Hmode').
    exists (losses :: added). split; [|split; [|split]].
    + rewrite Hreport, <- app_assoc. reflexivity.
    + cbn [List.length epoch_sessions]. rewrite Hrun. cbn [fst].
      constructor; assumption.
    + rewrite Hcalls', Hcalls; simpl. now rewrite <- app_assoc.
    + rewrite Hmode'. now destruct rest.
Qed.

Lemma epoch_sessions_length (n : nat) (s : Train.Session T) :
  List.length (epoch_sessions T dm n s) = n.
Proof.
  revert s. induction n as [|n IH]; intros s; simpl; [reflexivity|].
  f_equal. apply IH.
Qed.

End FitReports.

(** X7.  When [fit] runs to its end, it has printed one pair of losses per
    epoch, and the pair of an epoch holds the mean training loss of that
    epoch's training pass (started from the session the epoch before left)
    and the mean validation loss under the parameters that pass left;
    every epoch has made the same calls (the training pass with one
    optimizer step per batch, the validation pass, one more forward call
    for the visualisation), and the model is left in eval mode. *)
Theorem fit_report_when_finished :
  forall (T : Torch) (dm : Fit.DataModule T) (s : Train.Session T)
         (epochs : Z) (report : list (Q * Q)),
    snd (Fit.fit T s dm epochs) = Fit.Finished report ->
    List.length report = Z.to_nat epochs
    /\ Forall2 (reports_epoch_means T dm)
         (epoch_sessions T dm (Z.to_nat epochs) s) report
    /\ Train.calls (fst (Fit.fit T s dm epochs))
       = Train.calls s
         ++ List.concat (repeat (Fit.epoch_calls T dm) (Z.to_nat epochs))
    /\ (0 < epochs -> Train.training (fst (Fit.fit T s dm epochs)) = false).
Proof.
  intros T dm s epochs report. unfold Fit.fit. intros Hfin.
  destruct (epochs_loop_when_finished T dm (Fit.range epochs) s [] report Hfin)
    as (added & Hreport & Hall & Hcalls & Hmode).
  rewrite range_length in *. cbn [app] in Hreport. subst added.
  split; [|split; [exact Hall|split; [exact Hcalls|]]].
  - apply Forall2_length in Hall. rewrite <- Hall.
    apply epoch_sessions_length.
  - intros Hpos. rewrite Hmode.
    now destruct (range_positive epochs Hpos) as [rest ->].
Qed.

(** Two epochs of the linear model, trained from parameter [1]: the run
    comes to its end, and the two pairs it printed are the means. *)
Lemma fit_report_when_finished_witness :
  snd (Fit.fit toy_torch toy_session toy_datamodule 2)
  = Fit.Finished [(17 # 2, 1764); (1249 # 2, 112896)]%Q
  /\ Forall2 (reports_epoch_means toy_torch toy_datamodule)
       (epoch_sessions toy_torch toy_datamodule 2 toy_session)
       [(17 # 2, 1764); (1249 # 2, 112896)]%Q.
Proof.
  split; [reflexivity|].
  destruct (fit_report_when_finished toy_torch toy_datamodule toy_session 2
              [(17 # 2, 1764); (1249 # 2, 112896)]%Q eq_refl)
    as (_ & Hall & _).
  exact Hall.
Defined.

(** X8.  What [fit] raises never is the [StopIteration] of [visualize]
    nor a [KeyError] of the lookups in the loss dicts.  [visualize] on its
    own does raise [StopIteration] over an empty loader; in [fit] the
    validation pass before it has then already failed. *)
Theorem fit_never_raises_from_visualize_or_lookup :
  forall (T : Torch) (dm : Fit.DataModule T) (s : Train.Session T)
         (epochs : Z),
    snd (Fit.fit T s dm epochs) <> Fit.Aborted Fit.StopIteration
    /\ snd (Fit.fit T s dm epochs) <> Fit.Aborted Fit.KeyError
    /\ Fit.visualize T s [] = (s, Fit.Aborted Fit.StopIteration).
Proof.
  intros T dm s epochs.
  assert (Hrunner :
    forall r, snd (Fit.fit T s dm epochs) = Fit.Aborted r ->
              r = Fit.Runner ZeroDivisionError).
  { intros r.
    destruct (Z_lt_ge_dec 0 epochs) as [Hpos|Hnonpos].
    - destruct (empty_or_not (Fit.train_dataloader dm)) as [Htrain|Htrain];
        [|destruct (empty_or_not (Fit.val_dataloader dm)) as [Hval|Hval]].
      + rewrite fit_first_round by exact Hpos.
        rewrite epoch_body_without_training_batches by exact Htrain.
        cbn [snd]. now intros [= <-].
      + rewrite fit_first_round by exact Hpos.
        rewrite epoch_body_without_validation_batches by assumption.
        cbn [snd]. now intros [= <-].
      + unfold Fit.fit.
        destruct (epochs_loop_finishes T dm Htrain Hval (Fit.range epochs)
                    s []) as (report & Hreport & _).
        rewrite Hreport. discriminate.
    - unfold Fit.fit. rewrite range_nonpositive by lia. discriminate. }
  split; [|split; [|reflexivity]].
  - intros Habs. apply Hrunner in Habs. discriminate.
  - intros Habs. apply Hrunner in Habs. discriminate.
Qed.
(** X9.  Where [fit] stops.  Asked for no epoch, it touches nothing, empty
    loaders or not.  With an epoch to run and no training batch, it stops
    right after [model.train()], before any forward call.  With training
    batches and no validation batch, it stops in the first validation,
    when the first training pass has already updated the parameters. *)
Theorem fit_stopping_points :
  forall (T : Torch) (dm : Fit.DataModule T) (s : Train.Session T)
         (epochs : Z),
    (epochs <= 0 -> Fit.fit T s dm epochs = (s, Fit.Finished []))
    /\ (0 < epochs ->
        Fit.train_dataloader dm = [] ->
        Fit.fit T s dm epochs
        = (Train.model_train T s,
           Fit.Aborted (Fit.Runner ZeroDivisionError)))
    /\ (0 < epochs ->
        Fit.train_dataloader dm <> [] ->
        Fit.val_dataloader dm = [] ->
        Fit.fit T s dm epochs
        = (Train.model_eval T
             (fst (Train.train T s (Fit.train_dataloader dm))),
           Fit.Aborted (Fit.Runner ZeroDivisionError))).
Proof.
  intros T dm s epochs. split; [|split].
  - intros Hnone. unfold Fit.fit. now rewrite range_nonpositive.
  - intros Hpos Htrain. rewrite fit_first_round by exact Hpos.
    now rewrite epoch_body_without_training_batches.
  - intros Hpos Htrain Hval. rewrite fit_first_round by exact Hpos.
    now rewrite epoch_body_without_validation_batches.
Qed.

(* ================================================================== *)
(** * Further properties: the Lightning module *)
(* ================================================================== *)

Section ModuleFacts.
Context (T : Torch).

(** What every round keeps, the loop keeps, however it ends. *)
Lemma for_each_keeps {A B : Type} (body : A -> B -> A * Saliency.ending)
    (Inv : A -> Prop) (l : list B) :
  (forall s ib, In ib l -> Inv s -> Inv (fst (body s ib))) ->
  forall s : A, Inv s -> Inv (fst (Saliency.for_each body l s)).
Proof.
  induction l as [|ib rest IH]; intros Hbody s Hinv;
    cbn [Saliency.for_each]; [exact Hinv|].
  pose proof (Hbody s ib (or_introl eq_refl) Hinv) as Hround.
  destruct (body s ib) as [s1 e]. cbn [fst] in Hround.
  destruct e as [|r]; [|exact Hround].
  apply IH; [|exact Hround].
  intros s0 ib0 Hin. apply Hbody. now right.
Qed.


(** The same when the last round may raise: the loop then ends as its last
    round does. *)
Lemma for_each_all_but_last {A B : Type}
    (body : A -> B -> A * Saliency.ending) (Inv : A -> Prop)
    (l : list B) (final : B) :
  (forall s ib,
      In ib l -> Inv s ->
      Inv (fst (body s ib)) /\ snd (body s ib) = Saliency.Returned) ->
  forall s : A,
    Inv s ->
    fst (Saliency.for_each body (l ++ [final]) s)
    = fold_left (fun s ib => fst (body s ib)) (l ++ [final]) s
    /\ snd (Saliency.for_each body (l ++ [final]) s)
       = snd (body (fold_left (fun s ib => fst (body s ib)) l s) final).
Proof.
  induction l as [|ib rest IH]; intros Hbody s Hinv;
    cbn [app Saliency.for_each fold_left].
  - destruct (body s final) as [s1 e]. now destruct e.
  - destruct (Hbody s ib (or_introl eq_refl) Hinv) as [Hinv1 Hend].
    destruct (body s ib) as [s1 e]. cbn [fst snd] in *. subst e.
    apply IH; [|exact Hinv1].
    intros s0 ib0 Hin. apply Hbody. now right.
Qed.

(** The rounds of a training loop and the rounds of the loop of [train]
    move the parameters and the optimizer state alike. *)
Lemma training_rounds_params (l : list (Z * Saliency.batch T))
    (self : Saliency.SaliencyModel T) (s : Train.Session T) (acc : Q) :
  Train.params (Saliency.net self) = Train.params s ->
  Train.opt_state (Saliency.net self) = Train.opt_state s ->
  Train.training (Saliency.net self) = Train.training s ->
  Train.params
    (Saliency.net
       (fold_left (fun s0 ib => fst (Saliency.training_batch T s0 ib)) l
          self))
  = Train.params (fst (fold_left (Train.train_batch T) (map snd l) (s, acc)))
  /\ Train.opt_state
       (Saliency.net
          (fold_left (fun s0 ib => fst (Saliency.training_batch T s0 ib)) l
             self))
     = Train.opt_state
         (fst (fold_left (Train.train_batch T) (map snd l) (s, acc))).
Proof.
  revert self s acc.
  induction l as [|[batch_idx b] rest IH]; intros self s acc Hp Ho Hm;
    cbn [map fold_left snd].
  - cbn [fst]. split; assumption.
  - destruct (training_round_state T self batch_idx b)
      as (Hp1 & Ho1 & Hm1 & _).
    rewrite (train_batch_effect T s acc b).
    apply IH; rewrite train_batch_state;
      cbn [Train.params Train.opt_state Train.training];
      rewrite ?Hp1, ?Ho1, ?Hm1, ?Hp, ?Ho, ?Hm; reflexivity.
Qed.



(** The state a training epoch leaves is that of its rounds, one after the
    other: no round before the last one raises. *)
Lemma training_epoch_state (self : Saliency.SaliencyModel T)
    (batches : list (Saliency.batch T)) :
  fst (Saliency.training_epoch T self batches)
  = fold_left (fun s0 ib => fst (Saliency.training_batch T s0 ib))
      (Saliency.enumerate batches)
      (Saliency.begin_training_epoch T self batches).
Proof.
  unfold Saliency.training_epoch.
  destruct (empty_or_not batches) as [->|Hne]; [reflexivity|].
  destruct (exists_last Hne) as (init & final & Hsplit).
  set (start := Saliency.begin_training_epoch T self batches).
  assert (Hlen : len batches - 1 = len init)
    by (rewrite Hsplit; unfold len; rewrite length_app; simpl; lia).
  rewrite Hsplit at 1 2. rewrite enumerate_snoc.
  refine (proj1 (for_each_all_but_last (Saliency.training_batch T)
                   (fun s => Saliency.num_training_batches (Saliency.trainer s)
                             = len batches)
                   (Saliency.enumerate init) (len init, final) _
                   start eq_refl)).
  intros s0 [i b] Hin Hinv. apply enumerate_bound in Hin.
  destruct (training_round_state T s0 i b)
    as (_ & _ & _ & _ & _ & Htr & _ & _ & _ & Hend).
  rewrite Hinv in Hend.
  replace (i =? len batches - 1) with false in Hend
    by (symmetry; apply Z.eqb_neq; lia).
  split; [now rewrite Htr | exact Hend].
Qed.



End ModuleFacts.

(** X10.  The module a validation pass or a test pass of the Lightning
    module leaves, hooks and snapshot included and whether the pass
    returns or its snapshot raises, has the parameters, the gradients and
    the optimizer state it had before, and the accumulators of the other
    splits as they were; a training epoch leaves the validation and test
    accumulators as they were. *)
Theorem passes_keep_what_is_not_theirs :
  forall (T : Torch) (self : Saliency.SaliencyModel T)
         (batches : list (Saliency.batch T)),
    (let self' := fst (Saliency.validation_pass T self batches) in
     Train.params (Saliency.net self') = Train.params (Saliency.net self)
     /\ Train.grads (Saliency.net self') = Train.grads (Saliency.net self)
     /\ Train.opt_state (Saliency.net self')
        = Train.opt_state (Saliency.net self)
     /\ Saliency.train_metrics self' = Saliency.train_metrics self
     /\ Saliency.test_metrics self' = Saliency.test_metrics self)
    /\ (let self' := fst (Saliency.test_pass T self batches) in
        Train.params (Saliency.net self') = Train.params (Saliency.net self)
        /\ Train.grads (Saliency.net self') = Train.grads (Saliency.net self)
        /\ Train.opt_state (Saliency.net self')
           = Train.opt_state (Saliency.net self)
        /\ Saliency.train_metrics self' = Saliency.train_metrics self
        /\ Saliency.val_metrics self' = Saliency.val_metrics self)
    /\ (let self' := fst (Saliency.training_epoch T self batches) in
        Saliency.val_metrics self' = Saliency.val_metrics self
        /\ Saliency.test_metrics self' = Saliency.test_metrics self).
Proof.
  intros T self batches. cbv zeta. split; [|split].
  - unfold Saliency.validation_pass.
    apply (for_each_keeps (Saliency.validation_batch T)
             (fun s =>
                Train.params (Saliency.net s)
                = Train.params (Saliency.net self)
                /\ Train.grads (Saliency.net s)
                   = Train.grads (Saliency.net self)
                /\ Train.opt_state (Saliency.net s)
                   = Train.opt_state (Saliency.net self)
                /\ Saliency.train_metrics s = Saliency.train_metrics self
                /\ Saliency.test_metrics s = Saliency.test_metrics self));
      [|simpl; auto].
    intros s [batch_idx b] _ (Hp & Hg & Ho & Htr & Hte).
    destruct (validation_round_state T s batch_idx b)
      as (Hp1 & Hg1 & Ho1 & _ & Htr1 & Hte1 & _).
    repeat split; congruence.
  - unfold Saliency.test_pass.
    apply (for_each_keeps (Saliency.test_batch T)
             (fun s =>
                Train.params (Saliency.net s)
                = Train.params (Saliency.net self)
                /\ Train.grads (Saliency.net s)
                   = Train.grads (Saliency.net self)
                /\ Train.opt_state (Saliency.net s)
                   = Train.opt_state (Saliency.net self)
                /\ Saliency.train_metrics s = Saliency.train_metrics self
                /\ Saliency.val_metrics s = Saliency.val_metrics self)).
    + intros s [batch_idx b] _ (Hp & Hg & Ho & Htr & Hva).
      unfold Saliency.test_batch, Saliency.test_step,
        Saliency.on_test_batch_end, Saliency.forward_call.
      destruct b as [image ground_truth]; simpl.
      destruct (Py.getitem _ 0) as [n|e]; simpl; [|auto].
      destruct (batch_idx =? n - 1); simpl; [|auto].
      rewrite save_image_effect; simpl. auto.
    + simpl; auto.
  - unfold Saliency.training_epoch.
    apply (for_each_keeps (Saliency.training_batch T)
             (fun s =>
                Saliency.val_metrics s = Saliency.val_metrics self
                /\ Saliency.test_metrics s = Saliency.test_metrics self));
      [|simpl; auto].
    intros s [batch_idx b] _ (Hva & Hte).
    destruct (training_round_state T s batch_idx b)
      as (_ & _ & _ & Hva1 & Hte1 & _).
    split; congruence.
Qed.


(** X12.  What the snapshots show, and what becomes of them.  In a
    validation pass the one figure drawn is that of the first batch: its
    input, its ground truth and the prediction under the parameters of the
    pass, under the title of the current epoch.  In a training epoch it is
    that of the last batch, with the prediction under the parameters the
    epoch ends with.  Neither reaches the TensorBoard log: [add_image]
    takes the 2800 x 3850 x 3 buffer for an image of 2800 channels and
    raises, so that a pass over at least one batch returns only when no
    TensorBoard logger is registered. *)
Theorem snapshots_show_first_and_last_batch :
  forall (T : Torch) (self : Saliency.SaliencyModel T)
         (b : Saliency.batch T) (others : list (Saliency.batch T)),
    let e := Saliency.current_epoch (Saliency.trainer self) in
    (let self' := fst (Saliency.validation_pass T self (b :: others)) in
     Saliency.figures self'
     = Saliency.figures self
       ++ [Saliency.Build_Figure T
             ("validation epoch: " ++ str_of_int e)%string
             (sample0 T (normalized T (fst b)))
             (sample0 T (normalized T (snd b)))
             (sample0 T
                (normalized T
                   (forward T (Train.params (Saliency.net self)) false
                      (fst b))))]
     /\ Saliency.tensorboard self' = Saliency.tensorboard self)
    /\ (let self' := fst (Saliency.training_epoch T self (others ++ [b])) in
        Saliency.figures self'
        = Saliency.figures self
          ++ [Saliency.Build_Figure T
                ("training epoch: " ++ str_of_int e)%string
                (sample0 T (normalized T (fst b)))
                (sample0 T (normalized T (snd b)))
                (sample0 T
                   (normalized T
                      (forward T (Train.params (Saliency.net self')) true
                         (fst b))))]
        /\ Saliency.tensorboard self' = Saliency.tensorboard self)
    /\ (snd (Saliency.validation_pass T self (b :: others))
        = Saliency.Returned ->
        existsb Saliency.is_tensorboard (Saliency.loggers self) = false)
    /\ (snd (Saliency.training_epoch T self (others ++ [b]))
        = Saliency.Returned ->
        existsb Saliency.is_tensorboard (Saliency.loggers self) = false).
Proof.
  intros T self b others. cbv zeta.
  assert (Hval :
    (Saliency.figures (fst (Saliency.validation_pass T self (b :: others)))
     = Saliency.figures self
       ++ [Saliency.Build_Figure T
             ("validation epoch: "
              ++ str_of_int (Saliency.current_epoch (Saliency.trainer self)))
             (sample0 T (normalized T (fst b)))
             (sample0 T (normalized T (snd b)))
             (sample0 T
                (normalized T
                   (forward T (Train.params (Saliency.net self)) false
                      (fst b))))]
     /\ Saliency.tensorboard (fst (Saliency.validation_pass T self (b :: others)))
        = Saliency.tensorboard self)
    /\ (snd (Saliency.validation_pass T self (b :: others))
        = Saliency.Returned ->
        existsb Saliency.is_tensorboard (Saliency.loggers self) = false)).
  { unfold Saliency.validation_pass.
    rewrite enumerate_cons. cbn [Saliency.for_each].
    destruct (validation_round_state T
                (Saliency.begin_validation_pass T self) 0 b)
      as (_ & _ & _ & _ & _ & _ & _ & _ & _ & Hboard & Hfig & Hend).
    destruct (Saliency.validation_batch T
                (Saliency.begin_validation_pass T self) (0, b))
      as [s1 e1].
    cbn [fst snd Z.eqb andb] in Hboard, Hfig, Hend.
    assert (Hloggers :
      Saliency.loggers (Saliency.begin_validation_pass T self)
      = Saliency.loggers self) by reflexivity.
    rewrite Hloggers in Hend.
    destruct (existsb Saliency.is_tensorboard (Saliency.loggers self));
      subst e1; cbn [fst snd].
    - split; [split; [exact Hfig | exact Hboard] | discriminate].
    - split; [|reflexivity].
      assert (Hrounds :
        forall s0 ib,
          In ib (combine (map Z.of_nat (seq 1 (List.length others))) others) ->
          Saliency.figures s0 = Saliency.figures s1
          /\ Saliency.tensorboard s0 = Saliency.tensorboard s1 ->
          Saliency.figures (fst (Saliency.validation_batch T s0 ib))
          = Saliency.figures s1
          /\ Saliency.tensorboard (fst (Saliency.validation_batch T s0 ib))
             = Saliency.tensorboard s1).
      { intros s0 [i b0] Hin [Hf Hb].
        apply enumerate_tail_positive in Hin.
        destruct (validation_round_state T s0 i b0)
          as (_ & _ & _ & _ & _ & _ & _ & _ & _ & Hb1 & Hf1 & _).
        replace (i =? 0) with false in Hf1
          by (symmetry; apply Z.eqb_neq; lia).
        rewrite app_nil_r in Hf1. split; congruence. }
      destruct (for_each_keeps (Saliency.validation_batch T)
                  (fun s =>
                     Saliency.figures s = Saliency.figures s1
                     /\ Saliency.tensorboard s = Saliency.tensorboard s1)
                  _ Hrounds s1 (conj eq_refl eq_refl))
        as [Hfig2 Hboard2].
      rewrite Hfig2, Hboard2. split; [exact Hfig | exact Hboard]. }
  assert (Htrain :
    (Saliency.figures (fst (Saliency.training_epoch T self (others ++ [b])))
     = Saliency.figures self
       ++ [Saliency.Build_Figure T
             ("training epoch: "
              ++ str_of_int (Saliency.current_epoch (Saliency.trainer self)))
             (sample0 T (normalized T (fst b)))
             (sample0 T (normalized T (snd b)))
             (sample0 T
                (normalized T
                   (forward T
                      (Train.params
                         (Saliency.net
                            (fst (Saliency.training_epoch T self
                                    (others ++ [b])))))
                      true (fst b))))]
     /\ Saliency.tensorboard
          (fst (Saliency.training_epoch T self (others ++ [b])))
        = Saliency.tensorboard self)
    /\ (snd (Saliency.training_epoch T self (others ++ [b]))
        = Saliency.Returned ->
        existsb Saliency.is_tensorboard (Saliency.loggers self) = false)).
  { unfold Saliency.training_epoch. rewrite enumerate_snoc.
    set (start := Saliency.begin_training_epoch T self (others ++ [b])).
    assert (Hlen : len (others ++ [b]) - 1 = len others)
      by (unfold len; rewrite length_app; simpl; lia).
    destruct (quiet_rounds T (Saliency.training_batch T)
                (fun s =>
                   Saliency.trainer s = Saliency.trainer start
                   /\ Train.training (Saliency.net s) = true
                   /\ Saliency.tensorboard s = Saliency.tensorboard self
                   /\ Saliency.loggers s = Saliency.loggers self)
                (Saliency.enumerate others))
      with (s := start) (rest := [(len others, b)])
      as (s1 & (Htr1 & Hm1 & Hb1 & Hl1) & Hfig1 & -> & _).
    - intros s0 [i b0] Hin (Htr & Hm & Hb & Hl).
      apply enumerate_bound in Hin.
      destruct (training_round_state T s0 i b0)
        as (_ & _ & Hm' & _ & _ & Htr' & Hl' & Hb' & Hf' & He').
      rewrite Htr in Hf', He'. cbn [start Saliency.begin_training_epoch
        Saliency.trainer Saliency.set_net Saliency.set_trainer
        Saliency.num_training_batches] in Hf', He'.
      replace (i =? len (others ++ [b]) - 1) with false in Hf', He'
        by (symmetry; apply Z.eqb_neq; lia).
      rewrite app_nil_r in Hf'. cbn [andb] in He'.
      split; [|split; [exact He' | exact Hf']].
      repeat split; congruence.
    - repeat split.
    - cbn [Saliency.for_each].
      destruct (training_round_state T s1 (len others) b)
        as (Hp2 & _ & _ & _ & _ & _ & _ & Hb2 & Hf2 & He2).
      rewrite Htr1 in Hf2, He2. cbn [start Saliency.begin_training_epoch
        Saliency.trainer Saliency.set_net Saliency.set_trainer
        Saliency.num_training_batches Saliency.current_epoch] in Hf2, He2.
      rewrite Hlen, Z.eqb_refl in Hf2. rewrite <- Hp2 in Hf2.
      rewrite Hm1 in Hf2.
      rewrite Hlen, Z.eqb_refl, Hl1 in He2. cbn [andb] in He2.
      destruct (Saliency.training_batch T s1 (len others, b)) as [s2 e2].
      cbn [fst snd] in *.
      assert (Hstate :
        fst (match e2 with
             | Saliency.Returned => (s2, Saliency.Returned)
             | Saliency.Raised r => (s2, Saliency.Raised r)
             end) = s2) by (now destruct e2).
      rewrite Hstate. split.
      + split; [rewrite Hf2, Hfig1; reflexivity | congruence].
      + destruct (existsb Saliency.is_tensorboard (Saliency.loggers self));
          [subst e2; discriminate | reflexivity]. }
  destruct Hval as [Hval1 Hval2], Htrain as [Htrain1 Htrain2].
  split; [exact Hval1|]. split; [exact Htrain1|].
  split; [exact Hval2 | exact Htrain2].
Qed.

(** X13.  A training epoch of the Lightning module and [train] of
    train.py update the model alike: started from the same network and
    optimizer and fed the same batches, they leave the same parameters and
    the same optimizer state; the extra forward call of the snapshot
    changes neither, and nor does the way the snapshot ends. *)
Theorem training_epoch_steps_like_train :
  forall (T : Torch) (self : Saliency.SaliencyModel T)
         (batches : list (Saliency.batch T)),
    Train.params (Saliency.net (fst (Saliency.training_epoch T self batches)))
    = Train.params (fst (Train.train T (Saliency.net self) batches))
    /\ Train.opt_state
         (Saliency.net (fst (Saliency.training_epoch T self batches)))
       = Train.opt_state (fst (Train.train T (Saliency.net self) batches)).
Proof.
  intros T self batches.
  rewrite training_epoch_state, train_unfold. cbn [fst].
  pose proof (training_rounds_params T (Saliency.enumerate batches)
                (Saliency.begin_training_epoch T self batches)
                (Train.model_train T (Saliency.net self)) 0%Q
                eq_refl eq_refl eq_refl) as Hrounds.
  rewrite enumerate_batches in Hrounds. exact Hrounds.
Qed.
(* ================================================================== *)
(** * Further properties: the network modules *)
(* ================================================================== *)

(** The attributes the two constructors leave behind. *)
Lemma salgan_encoder_fist {Tensor : Type} (L : Nn.Library Tensor)
    (head : option (Nn.layer Tensor)) :
  Nn.getattr (Nn.SalGANGenerator.init L head) "encoder_fist"
  = Nn.Ok (Nn.Sequential (firstn 17 (Nn.vgg16_bn_features L))).
Proof. reflexivity. Qed.

Lemma salgan_encoder_last {Tensor : Type} (L : Nn.Library Tensor)
    (head : option (Nn.layer Tensor)) :
  Nn.getattr (Nn.SalGANGenerator.init L head) "encoder_last"
  = Nn.Ok (Nn.Sequential
             (Nn.SalGANGenerator.slice_17_to_last (Nn.vgg16_bn_features L))).
Proof. reflexivity. Qed.

Lemma decoder_block_attributes {Tensor : Type} (L : Nn.Library Tensor)
    (in_channels out_channels : Z) (activation : Nn.layer Tensor)
    (name : string) :
  Nn.getattr (Nn.DecoderBlock.init L in_channels out_channels activation) name
  = if String.eqb "activation" name then Nn.Ok activation
    else if String.eqb "conv1" name
         then Nn.Ok (Nn.Conv2d L in_channels out_channels 3 1 1)
         else if String.eqb "upsample" name then Nn.Ok (Nn.Upsample L 2)
              else Nn.Err Nn.AttributeError.
Proof.
  unfold Nn.DecoderBlock.init, Nn.setattr. cbn [Nn.getattr].
  destruct (String.eqb "activation" name); [reflexivity|].
  destruct (String.eqb "conv1" name); reflexivity.
Qed.

(** X14.  [SalGANGenerator.forward] never returns a prediction: when the
    first encoder half accepts the input, the call of the second half
    without an argument raises [TypeError].  Nor does
    [DecoderBlock.forward] ever return: [conv2] is read but never set (the
    constructor assigns [conv1] twice), so when the upsampling, [conv1] (as
    assigned last) and the activation succeed, it raises
    [AttributeError]. *)
Theorem salgan_forward_never_returns :
  forall (Tensor : Type) (L : Nn.Library Tensor)
         (head : option (Nn.layer Tensor))
         (in_channels out_channels : Z) (activation : Nn.layer Tensor)
         (x : Tensor),
    (forall y,
        Nn.SalGANGenerator.forward (Nn.SalGANGenerator.init L head) x
        <> Nn.Ok y)
    /\ (forall x1,
           Nn.Sequential (firstn 17 (Nn.vgg16_bn_features L)) x = Nn.Ok x1 ->
           Nn.SalGANGenerator.forward (Nn.SalGANGenerator.init L head) x
           = Nn.Err Nn.TypeError)
    /\ (forall y,
           Nn.DecoderBlock.forward
             (Nn.DecoderBlock.init L in_channels out_channels activation) x
           <> Nn.Ok y)
    /\ (forall x1 x2 x3,
           Nn.Upsample L 2 x = Nn.Ok x1 ->
           Nn.Conv2d L in_channels out_channels 3 1 1 x1 = Nn.Ok x2 ->
           activation x2 = Nn.Ok x3 ->
           Nn.DecoderBlock.forward
             (Nn.DecoderBlock.init L in_channels out_channels activation) x
           = Nn.Err Nn.AttributeError).
Proof.
  intros Tensor L head in_channels out_channels activation x.
  split; [|split; [|split]].
  - intros y. unfold Nn.SalGANGenerator.forward.
    rewrite salgan_encoder_fist, salgan_encoder_last. cbn [Nn.bind Nn.call].
    destruct (Nn.Sequential (firstn 17 (Nn.vgg16_bn_features L)) x);
      discriminate.
  - intros x1 Hfirst. unfold Nn.SalGANGenerator.forward.
    rewrite salgan_encoder_fist, salgan_encoder_last. cbn [Nn.bind Nn.call].
    now rewrite Hfirst.
  - intros y. unfold Nn.DecoderBlock.forward.
    rewrite !decoder_block_attributes. simpl.
    destruct (Nn.Upsample L 2 x) as [x1|]; simpl; [|discriminate].
    destruct (Nn.Conv2d L in_channels out_channels 3 1 1 x1) as [x2|];
      simpl; [|discriminate].
    destruct (activation x2); discriminate.
  - intros x1 x2 x3 Hup Hconv Hact. unfold Nn.DecoderBlock.forward.
    rewrite !decoder_block_attributes. simpl.
    rewrite Hup; simpl. rewrite Hconv; simpl.
    now rewrite Hact.
Qed.

Lemma salgan_forward_never_returns_witness :
  Nn.SalGANGenerator.forward (Nn.SalGANGenerator.init toy_library None) 1
  = Nn.Err Nn.TypeError
  /\ Nn.DecoderBlock.forward
       (Nn.DecoderBlock.init toy_library 512 256 (Nn.LeakyReLU toy_library)) 1
     = Nn.Err Nn.AttributeError.
Proof.
  destruct (salgan_forward_never_returns Z toy_library None 512 256
              (Nn.LeakyReLU toy_library) 1) as (_ & Htype & _ & Hattr).
  split.
  - apply (Htype 1). reflexivity.
  - apply (Hattr 2 3 3); reflexivity.
Defined.

(** The two layers of [DummyNet] that change the spatial size. *)
Lemma halving (h : Z) : (h + 2 * 1 - 3) / 1 + 1 = h /\ (h - 2) / 2 + 1 = h / 2.
Proof.
  split.
  - rewrite Z.div_1_r. lia.
  - replace (h - 2) with (h + (-1) * 2) by lia.
    rewrite Z.div_add by lia. lia.
Qed.

(** X15.  The shape [DummyNet] returns.  An input [(N, in_channels, H, W)]
    with [H, W >= 2] comes out as [(N, classes, 2*(H//2), 2*(W//2))]: the
    spatial size of the input when [H] and [W] are even, one less in each
    odd dimension.  An input with another channel count, or with fewer
    than two rows or columns, is rejected. *)
Theorem dummynet_output_shape :
  forall (in_channels classes n c h w : Z),
    let x := Nn.DummyNet.Build_shape n c h w in
    (c = in_channels -> 2 <= h -> 2 <= w ->
     Nn.DummyNet.forward in_channels classes x
     = Some (Nn.DummyNet.Build_shape n classes (2 * (h / 2)) (2 * (w / 2)))
     /\ (2 * (h / 2) = h <-> Z.even h = true)
     /\ (2 * (w / 2) = w <-> Z.even w = true))
    /\ (c <> in_channels -> Nn.DummyNet.forward in_channels classes x = None)
    /\ (h < 2 \/ w < 2 -> Nn.DummyNet.forward in_channels classes x = None).
Proof.
  intros in_channels classes n c h w. cbv zeta.
  assert (Heven : forall k, 2 * (k / 2) = k <-> Z.even k = true).
  { intros k. rewrite Z.even_spec. split.
    - intros Hk. now exists (k / 2).
    - intros [m ->]. rewrite (Z.mul_comm 2 m), Z.div_mul by lia. lia. }
  unfold Nn.DummyNet.forward, Nn.DummyNet.encoder, Nn.DummyNet.decoder,
    Nn.DummyNet.head, Nn.DummyNet.then_, Nn.DummyNet.Conv2d,
    Nn.DummyNet.MaxPool2d, Nn.DummyNet.ConvTranspose2d,
    Nn.DummyNet.elementwise, Nn.DummyNet.checked.
  cbn [Nn.DummyNet.batch Nn.DummyNet.channels Nn.DummyNet.height
       Nn.DummyNet.width].
  destruct (halving h) as [-> Hh]. destruct (halving w) as [-> Hw].
  split; [|split].
  - intros -> Hh2 Hw2. rewrite Z.eqb_refl.
    assert (Hhp : (0 <? h) = true) by (apply Z.ltb_lt; lia).
    assert (Hwp : (0 <? w) = true) by (apply Z.ltb_lt; lia).
    rewrite Hhp, Hwp.
    cbn [andb Nn.DummyNet.batch Nn.DummyNet.channels Nn.DummyNet.height
         Nn.DummyNet.width].
    rewrite Hh, Hw.
    assert (Hh1 : 1 <= h / 2) by (apply Z.div_le_lower_bound; lia).
    assert (Hw1 : 1 <= w / 2) by (apply Z.div_le_lower_bound; lia).
    assert (Hhq : (0 <? h / 2) = true) by (apply Z.ltb_lt; lia).
    assert (Hwq : (0 <? w / 2) = true) by (apply Z.ltb_lt; lia).
    rewrite Hhq, Hwq.
    cbn [andb Nn.DummyNet.batch Nn.DummyNet.channels Nn.DummyNet.height
         Nn.DummyNet.width].
    rewrite Z.eqb_refl.
    replace ((h / 2 - 1) * 2 - 2 * 1 + 4) with (2 * (h / 2)) by lia.
    replace ((w / 2 - 1) * 2 - 2 * 1 + 4) with (2 * (w / 2)) by lia.
    assert (Hho : (0 <? 2 * (h / 2)) = true) by (apply Z.ltb_lt; lia).
    assert (Hwo : (0 <? 2 * (w / 2)) = true) by (apply Z.ltb_lt; lia).
    rewrite Hho, Hwo. cbn [andb].
    split; [reflexivity|]. split; apply Heven.
  - intros Hc. apply Z.eqb_neq in Hc. now rewrite Hc.
  - intros Hsmall.
    destruct (c =? in_channels); [|reflexivity].
    destruct ((0 <? h) && (0 <? w)) eqn:Hpos; [|reflexivity].
    apply andb_prop in Hpos. destruct Hpos as [Hhp Hwp].
    apply Z.ltb_lt in Hhp. apply Z.ltb_lt in Hwp.
    cbn [Nn.DummyNet.batch Nn.DummyNet.channels Nn.DummyNet.height
         Nn.DummyNet.width].
    rewrite Hh, Hw.
    assert (Hzero : (0 <? h / 2) && (0 <? w / 2) = false).
    { apply andb_false_iff.
      destruct Hsmall as [Hs|Hs]; [left | right]; apply Z.ltb_ge;
        rewrite Z.div_small by lia; lia. }
    now rewrite Hzero.
Qed.

(** The shape of the module's own self-test,
    [summary(DummyNet(), (3, 256, 256))]. *)
Lemma dummynet_output_shape_witness :
  Nn.DummyNet.forward 3 1 (Nn.DummyNet.Build_shape 2 3 256 256)
  = Some (Nn.DummyNet.Build_shape 2 1 256 256).
Proof.
  destruct (dummynet_output_shape 3 1 2 3 256 256) as [Hshape _].
  destruct Hshape as [Hout _]; [reflexivity | lia | lia |].
  exact Hout.
Defined.

(* ================================================================== *)
(** * Further properties: the directory layout *)
(* ================================================================== *)

Section LayoutFacts.

Lemma append_assoc (a b c : string) :
  ((a ++ b) ++ c)%string = (a ++ (b ++ c))%string.
Proof.
  induction a as [|x a IH]; simpl; [reflexivity | now rewrite IH].
Qed.

Lemma endswith_sep_append (a b : string) :
  b <> ""%string -> endswith_sep (a ++ b) = endswith_sep b.
Proof.
  intros Hb. induction a as [|x a IH]; simpl; [reflexivity|].
  rewrite <- IH.
  destruct (a ++ b)%string eqn:Hab; [|reflexivity].
  destruct a; simpl in Hab; [congruence | discriminate].
Qed.

Lemma append_nonempty (a b : string) :
  b <> ""%string -> String.eqb (a ++ b) "" = false.
Proof.
  intros Hb. apply String.eqb_neq.
  destruct a; simpl; [exact Hb | discriminate].
Qed.

(** Joining a directory that does not end in a separator with a name
    that does not start with one puts one separator between them. *)
Lemma join_step_plain (dir name : string) :
  dir <> ""%string -> endswith_sep dir = false ->
  startswith_sep name = false ->
  join_step dir name = (dir ++ "/" ++ name)%string.
Proof.
  intros Hdir Hend Hstart. unfold join_step.
  rewrite Hstart, Hend.
  apply String.eqb_neq in Hdir. now rewrite Hdir.
Qed.

End LayoutFacts.

(** X16.  The directory layout the Imp1k catalog reads.  For a category
    name that is not empty and neither starts nor ends with a separator,
    Imp1k lists [<extract_path>/imgs/<category>/*.jpg] and
    [<extract_path>/maps/<category>/*.jpg], whatever the extraction path
    is. *)
Theorem imp1k_reads_the_documented_layout :
  forall (Img : Type) (w : World Img) (d : Downloader) (category : string),
    category <> ""%string ->
    startswith_sep category = false ->
    endswith_sep category = false ->
    imp1k_images w d category
    = glob w (extract_path d ++ "/imgs/" ++ category ++ "/*.jpg")
    /\ imp1k_maps w d category
       = glob w (extract_path d ++ "/maps/" ++ category ++ "/*.jpg").
Proof.
  intros Img w d category Hne Hstart Hend.
  assert (Hjoin : forall dir leaf : string,
             dir <> ""%string -> endswith_sep dir = false ->
             leaf <> ""%string -> startswith_sep leaf = false ->
             path_join dir [category; leaf]
             = (dir ++ "/" ++ category ++ "/" ++ leaf)%string).
  { intros dir leaf Hdir Hdend Hleaf Hlstart. unfold path_join; simpl.
    rewrite (join_step_plain dir category Hdir Hdend Hstart).
    rewrite join_step_plain; [| | |exact Hlstart].
    - now rewrite !append_assoc.
    - destruct dir; [congruence | discriminate].
    - rewrite endswith_sep_append by discriminate.
      change ("/" ++ category)%string with (String "/" category).
      destruct category; [congruence | exact Hend]. }
  assert (Hsuffix : forall dir suffix : string,
             suffix <> ""%string ->
             (dir ++ suffix)%string <> ""%string)
    by (intros [|x dir] suffix Hs; simpl; [exact Hs | discriminate]).
  unfold imp1k_images, imp1k_maps.
  rewrite !Hjoin;
    first [ apply Hsuffix; discriminate
          | now rewrite endswith_sep_append by discriminate
          | discriminate
          | reflexivity
          | now rewrite !append_assoc ].
Qed.

Lemma imp1k_reads_the_documented_layout_witness :
  imp1k_images scenario_world {| extract_path := "/data" |} "ads"
  = glob scenario_world "/data/imgs/ads/*.jpg"
  /\ imp1k_maps scenario_world {| extract_path := "/data" |} "ads"
     = glob scenario_world "/data/maps/ads/*.jpg".
Proof.
  apply (imp1k_reads_the_documented_layout Z scenario_world
           {| extract_path := "/data" |} "ads");
    [discriminate | reflexivity | reflexivity].
Defined.
